(** * arraybridge.conversion_helpers: the two-tier conversion protocol

    A shallow embedding of [src/arraybridge/conversion_helpers.py]: the
    [MemoryTypeConverter] abstract base class, the generation of the
    [to_<target>] methods, the converter registry [_CONVERTERS] and the
    load-time validation [_validate_converters].

    Python code is embedded in a small monad that threads the state of the
    array frameworks (device and host memory, an opaque [World]), records the
    primitive calls and the log lines a run makes, and returns a value or a
    raised exception. *)

From stdpp Require Import base strings pretty list gmap finite.
From Stdlib Require Import ZArith.

Local Open Scope string_scope.
Local Open Scope list_scope.

(** ** Python exceptions *)

(** An exception object: its class name, whether it is an instance of
    [Exception] (as opposed to a bare [BaseException] such as
    [KeyboardInterrupt]), its [str()] and its [__cause__]. *)
#[warnings="-register-all"]
Inductive exn : Type :=
  Exn (exn_class : string) (exn_isinstance_Exception : bool)
      (exn_str : string) (exn_cause : option exn).

Definition exn_class (e : exn) : string :=
  match e with Exn c _ _ _ => c end.
Definition exn_isinstance_Exception (e : exn) : bool :=
  match e with Exn _ b _ _ => b end.
Definition exn_str (e : exn) : string :=
  match e with Exn _ _ s _ => s end.
Definition exn_cause (e : exn) : option exn :=
  match e with Exn _ _ _ c => c end.

(** The built-in classes that occur. The [str()] of a [KeyError] stands for
    the printed key and that of an [AttributeError] for the attribute name;
    the exact wording of the interpreter's messages plays no role. *)
Definition KeyError (key : string) : exn := Exn "KeyError" true key None.
Definition AttributeError (name : string) : exn :=
  Exn "AttributeError" true name None.
Definition RuntimeError (msg : string) : exn := Exn "RuntimeError" true msg None.
Definition ValueError (msg : string) : exn := Exn "ValueError" true msg None.
Definition KeyboardInterrupt : exn := Exn "KeyboardInterrupt" false "" None.

(** Modelled from the spec: the package's exception classes are declared in
    [arraybridge.exceptions], outside the module embedded here. The spec names
    [ZeroCopyUnsupportedError], raised inside the zero-copy tier, and
    [MemoryConversionError], which carries the original cause; both are
    ordinary [Exception] subclasses. *)
Definition ZeroCopyUnsupportedError (msg : string) : exn :=
  Exn "ZeroCopyUnsupportedError" true msg None.
Definition MemoryConversionError (msg : string) (cause : exn) : exn :=
  Exn "MemoryConversionError" true msg (Some cause).

(** [e'] is a [MemoryConversionError] raised [from e]. *)
Definition wraps_as_MemoryConversionError (e' e : exn) : Prop :=
  exn_class e' = "MemoryConversionError" ∧ exn_cause e' = Some e.

Inductive outcome (A : Type) : Type :=
  | Return (a : A)
  | Raise (e : exn).
Arguments Return {A} a.
Arguments Raise {A} e.

(** ** The interpreter monad *)

Section Interp.
(** The state of the frameworks' runtimes, and the values (arrays, tensors,
    capsules) the converters exchange. *)
Context {World Value : Type}.

(** What a run does that a caller can observe besides its result: the
    primitive it invokes, with its arguments, and the lines it logs. *)
Inductive event : Type :=
  | Call (name : string) (data : Value) (gpu_id : Z)
  | Warning (msg : string)
  | Debug (msg : string).

Record res (A : Type) : Type := Res {
  final : World;
  events : list event;
  out : outcome A
}.
Arguments Res {A} _ _ _.
Arguments final {A} _.
Arguments events {A} _.
Arguments out {A} _.

Definition M (A : Type) : Type := World → res A.

Definition ret {A} (a : A) : M A := λ w, Res w [] (Return a).
Definition raise {A} (e : exn) : M A := λ w, Res w [] (Raise e).
Definition emit (ev : event) : M unit := λ w, Res w [ev] (Return tt).

Definition bind {A B} (k : A → M B) (m : M A) : M B := λ w,
  let r := m w in
  match out r with
  | Return a =>
      let r' := k a (final r) in
      Res (final r') (events r ++ events r') (out r')
  | Raise e => Res (final r) (events r) (Raise e)
  end.

(** [try: m except Exception as e: h e]. Only instances of [Exception] are
    handled; anything else passes through. *)
Definition try_except {A} (m : M A) (h : exn → M A) : M A := λ w,
  let r := m w in
  match out r with
  | Return a => r
  | Raise e =>
      if exn_isinstance_Exception e then
        let r' := h e (final r) in
        Res (final r') (events r ++ events r') (out r')
      else r
  end.

#[global] Instance M_ret : MRet M := @ret.
#[global] Instance M_bind : MBind M := @bind.

(** *** Converter objects *)

(** A primitive operation of a converter, already bound to its object:
    [prim data gpu_id] runs in the frameworks' runtime and returns or raises. *)
Local Abbreviation prim := (Value → Z → World → World * outcome Value)%type.

(** An object stored in the registry. [Subclass] is an instance of a concrete
    subclass of [MemoryTypeConverter] that overrides the four abstract
    methods, as every subclass defined before the methods are generated must
    (until then Python refuses to instantiate a class that leaves one
    abstract), and that may define more. [Foreign] is an object of any other
    class, with just the attributes it has. An instance of a subclass written
    after generation that leaves [to_numpy] out is neither of the two: the
    generated [to_numpy] has replaced the abstract one by then, the class can
    be instantiated, and [self.to_numpy] is the generated method itself. Such
    objects are outside this development. *)
Inductive converter : Type :=
  | Subclass (to_numpy from_numpy from_dlpack move_to_device : prim)
             (extra : gmap string prim)
  | Foreign (attrs : gmap string prim).

Definition isinstance_MemoryTypeConverter (c : converter) : bool :=
  match c with Subclass _ _ _ _ _ => true | Foreign _ => false end.

(** The attributes found on the object or its concrete class. *)
Definition own_attrs (c : converter) : gmap string prim :=
  match c with
  | Subclass tn fn fd mv extra =>
      <["to_numpy" := tn]> (<["from_numpy" := fn]>
        (<["from_dlpack" := fd]> (<["move_to_device" := mv]> extra)))
  | Foreign attrs => attrs
  end.

(** [obj.name(data, gpu_id)] for one of the four primitives: they are found
    on the object itself, the call is recorded, the primitive runs. *)
Definition call (c : converter) (name : string) (data : Value) (gpu_id : Z)
    : M Value :=
  match own_attrs c !! name with
  | None => raise (AttributeError name)
  | Some f => λ w,
      let '(w', o) := f data gpu_id w in Res w' [Call name data gpu_id] o
  end.

End Interp.

Arguments event : clear implicits.
Arguments res : clear implicits.
Arguments M : clear implicits.
Arguments Res {World Value A} _ _ _.
Arguments final {World Value A} _.
Arguments events {World Value A} _.
Arguments out {World Value A} _.
Arguments converter : clear implicits.

Abbreviation prim World Value :=
  (Value → Z → World → World * outcome Value)%type.

(** ** What the module imports *)

(** [conversion_helpers] imports three names declared elsewhere in the
    package; they are parameters of the development.
    [arraybridge.types.MemoryType] is an [Enum]: a closed set of members,
    iterated in declaration order ([enum]), each with a string [value] of its
    own (in an [Enum] a second name for the same value is an alias of the
    member, not a member). [arraybridge.utils._supports_dlpack] is the
    capability probe: it inspects a value and answers with a boolean, without
    failing. [arraybridge.converters_registry.get_converter] returns the
    converter of the framework of a given name, or raises. *)
Class Imports (World Value : Type) : Type := {
  MemoryType : Type;
  MemoryType_eq_dec :: EqDecision MemoryType;
  MemoryType_finite :: Finite MemoryType;
  value : MemoryType → string;
  value_inj :: Inj (=) (=) value;
  _supports_dlpack : Value → bool;
  get_converter : string → outcome (converter World Value)
}.

(** ** The module [arraybridge.conversion_helpers] *)

Section ConversionHelpers.
Context {World Value : Type} `{Imports World Value}.

Local Abbreviation event := (event Value).
Local Abbreviation M := (M World Value).
Local Abbreviation converter := (converter World Value).
Local Abbreviation prim := (prim World Value).

(** The namespace of the class [MemoryTypeConverter] itself: the abstract
    methods of lines 26-44 and, once generated, the [to_<target>] methods. *)
Inductive abc_attr : Type :=
  | Abstract
  | Generated (tgt : MemoryType).

Definition MemoryTypeConverter : gmap string abc_attr :=
  <["to_numpy" := Abstract]> (<["from_numpy" := Abstract]>
    (<["from_dlpack" := Abstract]> (<["move_to_device" := Abstract]> ∅))).

(** [hasattr(obj, name)]: the object's own attributes first, then the base
    class for its instances. *)
Definition hasattr (cls : gmap string abc_attr) (c : converter)
    (name : string) : bool :=
  bool_decide (is_Some (own_attrs c !! name))
  || (isinstance_MemoryTypeConverter c && bool_decide (is_Some (cls !! name))).

(** What [getattr(obj, name)] resolves to. *)
Inductive attr : Type :=
  | Own (f : prim)
  | Inherited (a : abc_attr).

Definition getattr (cls : gmap string abc_attr) (c : converter)
    (name : string) : option attr :=
  match own_attrs c !! name with
  | Some f => Some (Own f)
  | None =>
      if isinstance_MemoryTypeConverter c then Inherited <$> cls !! name
      else None
  end.

(** *** The registry, a [dict] keyed by [MemoryType] in insertion order *)

Definition dict : Type := list (MemoryType * converter).

Fixpoint dict_get (d : dict) (k : MemoryType) : option converter :=
  match d with
  | [] => None
  | (k', v) :: d' => if decide (k = k') then Some v else dict_get d' k
  end.

Fixpoint dict_set (k : MemoryType) (v : converter) (d : dict) : dict :=
  match d with
  | [] => [(k, v)]
  | (k', v') :: d' =>
      if decide (k = k') then (k, v) :: d' else (k', v') :: dict_set k v d'
  end.

(** [d[k]] *)
Definition subscript (d : dict) (k : MemoryType) : M converter :=
  match dict_get d k with
  | Some c => ret c
  | None => raise (KeyError (value k))
  end.

(** [for x in xs: body x], where the body may raise. *)
Fixpoint for_ {A} (xs : list A) (body : A → M unit) : M unit :=
  match xs with
  | [] => mret tt
  | x :: xs' => body x;; for_ xs' body
  end.

(** *** The generated methods (lines 47-75) *)

(** [f"to_{target_type.value}"] *)
Definition to_name (target_type : MemoryType) : string :=
  "to_" +:+ value target_type.

(** The function [make_method(tgt)] returns, lines 59-72. The module global
    [_CONVERTERS] it reads when called is its first argument. *)
Definition method (_CONVERTERS : dict) (tgt : MemoryType)
    (self : converter) (data : Value) (gpu_id : Z) : M Value :=
  returned ←
    (if _supports_dlpack data then
       try_except
         (target_converter ← subscript _CONVERTERS tgt;
          result ← call target_converter "from_dlpack" data gpu_id;
          moved ← call target_converter "move_to_device" result gpu_id;
          mret (Some moved))
         (λ e,
            emit (Warning ("DLPack conversion failed: " +:+ exn_str e
                           +:+ ". Using CPU roundtrip."));;
            mret None)
     else mret None);
  match returned with
  | Some moved => mret moved
  | None =>
      numpy_data ← call self "to_numpy" data gpu_id;
      target_converter ← subscript _CONVERTERS tgt;
      call target_converter "from_numpy" numpy_data gpu_id
  end.

(** [_add_converter_methods()]: one [setattr] on the base class per member of
    the enumeration. The class namespace is passed and returned. *)
Definition _add_converter_methods (cls : gmap string abc_attr)
    : gmap string abc_attr :=
  foldl (λ cls target_type,
           <[to_name target_type := Generated target_type]> cls)
        cls (enum MemoryType).

(** *** The registry (lines 78-85) *)

Fixpoint dict_comprehension (members : list MemoryType) (d : dict)
    : outcome dict :=
  match members with
  | [] => Return d
  | mem_type :: members' =>
      match get_converter (value mem_type) with
      | Return c => dict_comprehension members' (dict_set mem_type c d)
      | Raise e => Raise e
      end
  end.

Definition _CONVERTERS : outcome dict :=
  dict_comprehension (enum MemoryType) [].

(** *** Load-time validation (lines 91-111) *)

Definition required_methods : list string :=
  ["to_numpy"; "from_numpy"; "from_dlpack"; "move_to_device"].

Definition missing_method (mem_type : MemoryType) (name : string) : exn :=
  RuntimeError (value mem_type +:+ " converter missing method: " +:+ name).

Definition _validate_converters (_CONVERTERS : dict)
    (cls : gmap string abc_attr) : M unit :=
  for_ _CONVERTERS (λ '(mem_type, converter),
    for_ required_methods (λ method,
      if negb (hasattr cls converter method)
      then raise (missing_method mem_type method)
      else mret tt);;
    for_ (enum MemoryType) (λ target_type,
      let method_name := to_name target_type in
      if negb (hasattr cls converter method_name)
      then raise (missing_method mem_type method_name)
      else mret tt));;
  emit (Debug ("âœ… Validated " +:+ pretty (length _CONVERTERS)
               +:+ " memory type converters")).

(** The module body in execution order: the registry is built (82-85), the
    methods are generated (88), the validation runs (111). What a successful
    import leaves behind is the registry and the class namespace. *)
Definition module_init : M (dict * gmap string abc_attr) :=
  match _CONVERTERS with
  | Raise e => raise e
  | Return cs =>
      let cls := _add_converter_methods MemoryTypeConverter in
      _validate_converters cs cls;;
      mret (cs, cls)
  end.

(** *** The two tiers, named *)

(** The body of the [try] block, lines 63-65. *)
Definition dlpack_path (_CONVERTERS : dict) (tgt : MemoryType)
    (data : Value) (gpu_id : Z) : M Value :=
  target_converter ← subscript _CONVERTERS tgt;
  result ← call target_converter "from_dlpack" data gpu_id;
  call target_converter "move_to_device" result gpu_id.

(** The line the handler logs, line 67. *)
Definition fallback_warning (e : exn) : event :=
  Warning ("DLPack conversion failed: " +:+ exn_str e
           +:+ ". Using CPU roundtrip.").

(** The CPU roundtrip, lines 70-72. *)
Definition cpu_roundtrip (_CONVERTERS : dict) (tgt : MemoryType)
    (self : converter) (data : Value) (gpu_id : Z) : M Value :=
  numpy_data ← call self "to_numpy" data gpu_id;
  target_converter ← subscript _CONVERTERS tgt;
  call target_converter "from_numpy" numpy_data gpu_id.

(** The spec's wording of the second tier: the source's export to the common
    format composed with the target's import from it, on the primitives
    themselves. A failure of either is the failure of the composition. *)
Definition compose_export_import (to_common_format from_common_format : prim)
    (data : Value) (gpu_id : Z) (w : World) : World * outcome Value :=
  match to_common_format data gpu_id w with
  | (w1, Return common) => from_common_format common gpu_id w1
  | (w1, Raise e) => (w1, Raise e)
  end.

(** Observations on the recorded events. *)
Definition is_call (name : string) (ev : event) : bool :=
  match ev with
  | Call n _ _ => bool_decide (n = name)
  | _ => false
  end.

Definition calls (name : string) (evs : list event) : bool :=
  existsb (is_call name) evs.

Definition is_warning (ev : event) : bool :=
  match ev with Warning _ => true | _ => false end.

(** A run was served by the zero-copy tier: it returned, and never entered
    the CPU roundtrip. *)
Definition served_by_zero_copy (r : res World Value Value) : Prop :=
  (∃ v, out r = Return v) ∧ calls "to_numpy" (events r) = false.

(** The target side lacks the zero-copy import for this value: its converter
    has no [from_dlpack], or [from_dlpack] refuses the value with an error. *)
Definition target_lacks_import (tc : converter) (data : Value) (gpu_id : Z)
    (w : World) : Prop :=
  match own_attrs tc !! "from_dlpack" with
  | None => True
  | Some fd =>
      ∃ e, (fd data gpu_id w).2 = Raise e ∧ exn_isinstance_Exception e = true
  end.

(** Every attribute the validation looks for: the four primitives and one
    [to_<target>] per member. *)
Definition validated_names : list string :=
  required_methods ++ (to_name <$> enum MemoryType).

(** The first attribute of [names], in order, that [hasattr] does not find. *)
Fixpoint find_missing (cls : gmap string abc_attr) (c : converter)
    (names : list string) : option string :=
  match names with
  | [] => None
  | name :: names' =>
      if hasattr cls c name then find_missing cls c names' else Some name
  end.

(** The first registry entry, in order, that lacks an attribute, with the
    first attribute it lacks. *)
Fixpoint first_missing (cls : gmap string abc_attr) (cs : dict)
    : option (MemoryType * string) :=
  match cs with
  | [] => None
  | (mem_type, c) :: cs' =>
      match find_missing cls c validated_names with
      | Some name => Some (mem_type, name)
      | None => first_missing cls cs'
      end
  end.

Definition complete (cs : dict) (cls : gmap string abc_attr) : Prop :=
  ∀ mem_type c name,
    (mem_type, c) ∈ cs → name ∈ validated_names → hasattr cls c name = true.

(** The names of the primitives a run called, in order, and the lines it
    logged at warning level. *)
Definition called (evs : list event) : list string :=
  omap (λ ev, match ev with Call name _ _ => Some name | _ => None end) evs.

Definition warnings (evs : list event) : list string :=
  omap (λ ev, match ev with Warning msg => Some msg | _ => None end) evs.

End ConversionHelpers.

(** ** A concrete package: six frameworks *)

Module Demo.

Inductive framework : Type :=
  NUMPY | CUPY | TORCH | TENSORFLOW | JAX | PYCLESPERANTO.

#[global] Instance framework_eq_dec : EqDecision framework.
Proof. solve_decision. Defined.

Definition framework_value (m : framework) : string :=
  match m with
  | NUMPY => "numpy" | CUPY => "cupy" | TORCH => "torch"
  | TENSORFLOW => "tensorflow" | JAX => "jax"
  | PYCLESPERANTO => "pyclesperanto"
  end.

Definition members : list framework :=
  [NUMPY; CUPY; TORCH; TENSORFLOW; JAX; PYCLESPERANTO].

(** An array: the framework that owns it and its contents. The world counts
    the host copies made so far. *)
Record array : Type := Array { owner : framework; contents : N }.

Definition exports_dlpack (x : array) : bool :=
  match owner x with
  | CUPY | TORCH | TENSORFLOW | JAX => true
  | NUMPY | PYCLESPERANTO => false
  end.

Definition to_numpy_of : prim nat array := λ x _ copies,
  (S copies, Return (Array NUMPY (contents x))).

Definition from_numpy_of (fw : framework) : prim nat array := λ x _ copies,
  (S copies, Return (Array fw (contents x))).

Definition from_dlpack_of (fw : framework) : prim nat array := λ x _ copies,
  match fw with
  | PYCLESPERANTO =>
      (copies, Raise (ZeroCopyUnsupportedError "no DLPack import"))
  | _ => (copies, Return (Array fw (contents x)))
  end.

(** A negative device index is refused. *)
Definition move_to_device_of : prim nat array := λ x gpu_id copies,
  if (gpu_id <? 0)%Z then (copies, Raise (ValueError "invalid device"))
  else (copies, Return x).

Definition converter_of (fw : framework) : converter nat array :=
  Subclass to_numpy_of (from_numpy_of fw) (from_dlpack_of fw)
           move_to_device_of ∅.

Definition lookup_converter (name : string)
    : outcome (converter nat array) :=
  match list_find (λ fw, framework_value fw = name) members with
  | Some (_, fw) => Return (converter_of fw)
  | None => Raise (ValueError ("unknown memory type: " +:+ name))
  end.

(** Converters that misbehave in one way each. *)
Definition interrupted : converter nat array :=
  Subclass to_numpy_of (from_numpy_of TORCH)
           (λ _ _ copies, (copies, Raise KeyboardInterrupt))
           move_to_device_of ∅.

Definition failing_export : converter nat array :=
  Subclass (λ _ _ copies, (copies, Raise (ValueError "unsupported dtype")))
           (from_numpy_of PYCLESPERANTO) (from_dlpack_of PYCLESPERANTO)
           move_to_device_of ∅.

(** An object that is not a [MemoryTypeConverter] and has no [from_dlpack]. *)
Definition duck : converter nat array :=
  Foreign (<["to_numpy" := to_numpy_of]>
            (<["from_numpy" := from_numpy_of JAX]>
              (<["move_to_device" := move_to_device_of]> ∅))).

Definition lookup_with_duck (name : string)
    : outcome (converter nat array) :=
  if decide (name = "jax") then Return duck else lookup_converter name.

#[global, program] Instance framework_finite : Finite framework :=
  {| enum := members |}.
Next Obligation. unfold members. compute_done. Qed.
Next Obligation. intros []; compute_done. Qed.

#[global] Instance framework_value_inj : Inj (=) (=) framework_value.
Proof. intros [] []; simpl; intros Heq; first [reflexivity | discriminate Heq]. Qed.

(** A registry that cannot load JAX. *)
Definition lookup_without_jax (name : string)
    : outcome (converter nat array) :=
  if decide (name = "jax")
  then Raise (Exn "ImportError" true "No module named 'jax'" None)
  else lookup_converter name.

(** A sample package, and one whose registry hands out [duck] for one
    framework. *)
Definition package : Imports nat array := {|
  MemoryType := framework;
  value := framework_value;
  _supports_dlpack := exports_dlpack;
  get_converter := lookup_converter
|}.

Definition package_with_duck : Imports nat array := {|
  MemoryType := framework;
  value := framework_value;
  _supports_dlpack := exports_dlpack;
  get_converter := lookup_with_duck
|}.

Definition package_without_jax : Imports nat array := {|
  MemoryType := framework;
  value := framework_value;
  _supports_dlpack := exports_dlpack;
  get_converter := lookup_without_jax
|}.

(** The registry the sample package builds. *)
Definition registry : list (framework * converter nat array) :=
  (λ fw, (fw, converter_of fw)) <$> members.

End Demo.

(** * Properties *)

Section Properties.
Context {World Value : Type} `{Imports World Value}.

Local Abbreviation event := (event Value).
Local Abbreviation M := (M World Value).
Local Abbreviation converter := (converter World Value).
Local Abbreviation prim := (prim World Value).
Local Abbreviation dict := (list (MemoryType * converter)).

Implicit Types (cs : dict) (cls : gmap string abc_attr) (tgt : MemoryType).
Implicit Types (self tc : converter) (data : Value) (gpu_id : Z) (w : World).

(** ** Running the monad *)

Lemma res_eta {A} (r : res World Value A) :
  Res (final r) (events r) (out r) = r.
Proof. by destruct r. Qed.

Lemma call_own tc name (f : prim) data gpu_id w :
  own_attrs tc !! name = Some f →
  call tc name data gpu_id w =
    Res (f data gpu_id w).1 [Call name data gpu_id] (f data gpu_id w).2.
Proof. intros Hf. unfold call. rewrite Hf. by destruct (f data gpu_id w). Qed.

Lemma call_missing tc name data gpu_id w :
  own_attrs tc !! name = None →
  call tc name data gpu_id w = Res w [] (Raise (AttributeError name)).
Proof. intros Hf. unfold call. by rewrite Hf. Qed.

Lemma call_events tc name data gpu_id w ev :
  ev ∈ events (call tc name data gpu_id w) → ev = Call name data gpu_id.
Proof.
  unfold call. destruct (own_attrs tc !! name) as [f|]; simpl.
  - destruct (f data gpu_id w); simpl. by intros ->%list_elem_of_singleton.
  - by intros ?%elem_of_nil.
Qed.

Lemma subscript_events cs tgt w : events (subscript cs tgt w) = [].
Proof. unfold subscript. by destruct (dict_get cs tgt). Qed.

Lemma subscript_found cs tgt tc w :
  dict_get cs tgt = Some tc → subscript cs tgt w = Res w [] (Return tc).
Proof. intros Hc. unfold subscript. by rewrite Hc. Qed.

Lemma calls_app name (l1 l2 : list event) :
  calls name (l1 ++ l2) = calls name l1 || calls name l2.
Proof. apply existsb_app. Qed.

Lemma calls_false name (l : list event) :
  calls name l = false ↔ ∀ ev, ev ∈ l → is_call name ev = false.
Proof.
  unfold calls. induction l as [|x l IH]; simpl.
  - split; [by intros _ ev ?%elem_of_nil | done].
  - rewrite orb_false_iff, IH. split.
    + intros [Hx Hl] ev [->|Hin]%elem_of_cons; auto.
    + intros Hall. split; [apply Hall; left | intros ev Hin; apply Hall; by right].
Qed.

(** ** The shape of a run of the generated method *)

(** The [try] body of [method] is [dlpack_path] with its result wrapped. *)
Lemma try_body_dlpack_path cs tgt data gpu_id w :
  let body : M (option Value) :=
    target_converter ← subscript cs tgt;
    result ← call target_converter "from_dlpack" data gpu_id;
    moved ← call target_converter "move_to_device" result gpu_id;
    mret (Some moved) in
  let r := dlpack_path cs tgt data gpu_id w in
  body w = Res (final r) (events r)
               (match out r with Return v => Return (Some v) | Raise e => Raise e end).
Proof.
  unfold dlpack_path, mbind, M_bind, bind, mret, M_ret, ret, subscript, call, raise.
  simpl. destruct (dict_get cs tgt) as [tc|]; simpl; [|done].
  destruct (own_attrs tc !! "from_dlpack") as [fd|]; simpl; [|done].
  destruct (fd data gpu_id w) as [w1 [result|e]]; simpl; [|done].
  destruct (own_attrs tc !! "move_to_device") as [mv|]; simpl; [|done].
  destruct (mv result gpu_id w1) as [w2 [moved|e]]; simpl; [|done].
  done.
Qed.

Lemma method_probe_false cs tgt self data gpu_id w :
  _supports_dlpack data = false →
  method cs tgt self data gpu_id w = cpu_roundtrip cs tgt self data gpu_id w.
Proof.
  intros Hp. unfold method. rewrite Hp.
  change (cpu_roundtrip cs tgt self data gpu_id w) with
    ((numpy_data ← call self "to_numpy" data gpu_id;
      target_converter ← subscript cs tgt;
      call target_converter "from_numpy" numpy_data gpu_id) w).
  unfold mbind at 1, M_bind at 1, bind at 1. simpl. apply res_eta.
Qed.

Lemma method_zero_copy_returns cs tgt self data gpu_id w v :
  _supports_dlpack data = true →
  out (dlpack_path cs tgt data gpu_id w) = Return v →
  method cs tgt self data gpu_id w = dlpack_path cs tgt data gpu_id w.
Proof.
  intros Hp Hr. unfold method. rewrite Hp.
  unfold mbind at 1, M_bind at 1, bind at 1. unfold try_except.
  pose proof (try_body_dlpack_path cs tgt data gpu_id w) as Hb. simpl in Hb.
  rewrite Hb, Hr. simpl. rewrite app_nil_r, <-Hr. apply res_eta.
Qed.

Lemma method_zero_copy_caught cs tgt self data gpu_id w e :
  _supports_dlpack data = true →
  out (dlpack_path cs tgt data gpu_id w) = Raise e →
  exn_isinstance_Exception e = true →
  let r1 := dlpack_path cs tgt data gpu_id w in
  let r2 := cpu_roundtrip cs tgt self data gpu_id (final r1) in
  method cs tgt self data gpu_id w =
    Res (final r2) (events r1 ++ fallback_warning e :: events r2) (out r2).
Proof.
  intros Hp Hr He. unfold method. rewrite Hp.
  unfold mbind at 1, M_bind at 1, bind at 1. unfold try_except.
  pose proof (try_body_dlpack_path cs tgt data gpu_id w) as Hb. simpl in Hb.
  rewrite Hb, Hr. simpl. rewrite He. simpl.
  by rewrite <-app_assoc.
Qed.

Lemma method_zero_copy_uncaught cs tgt self data gpu_id w e :
  _supports_dlpack data = true →
  out (dlpack_path cs tgt data gpu_id w) = Raise e →
  exn_isinstance_Exception e = false →
  method cs tgt self data gpu_id w = dlpack_path cs tgt data gpu_id w.
Proof.
  intros Hp Hr He. unfold method. rewrite Hp.
  unfold mbind at 1, M_bind at 1, bind at 1. unfold try_except.
  pose proof (try_body_dlpack_path cs tgt data gpu_id w) as Hb. simpl in Hb.
  rewrite Hb, Hr. simpl. rewrite He. simpl. rewrite <-Hr. apply res_eta.
Qed.

(** ** The registry *)

Lemma dict_set_fresh (k : MemoryType) (v : converter) cs :
  k ∉ cs.*1 → dict_set k v cs = cs ++ [(k, v)].
Proof.
  induction cs as [|[k' v'] cs IH]; simpl; [done|].
  intros Hk. apply not_elem_of_cons in Hk as [Hne Hk].
  destruct (decide (k = k')) as [->|_]; [done|]. by rewrite IH.
Qed.

Lemma dict_get_elem cs (k : MemoryType) (v : converter) :
  NoDup cs.*1 → (k, v) ∈ cs → dict_get cs k = Some v.
Proof.
  induction cs as [|[k' v'] cs IH]; simpl.
  - by intros _ ?%elem_of_nil.
  - intros [Hk' Hnd]%NoDup_cons [Heq|Hin]%elem_of_cons.
    + injection Heq as -> ->. by rewrite decide_True.
    + destruct (decide (k = k')) as [->|_]; [|by apply IH].
      exfalso. apply Hk'. change k' with ((k', v).1). by apply list_elem_of_fmap_2.
Qed.

Lemma dict_get_Some cs (k : MemoryType) (v : converter) :
  dict_get cs k = Some v → (k, v) ∈ cs.
Proof.
  induction cs as [|[k' v'] cs IH]; simpl; [done|].
  destruct (decide (k = k')) as [->|_].
  - intros [= ->]. left.
  - intros Hg. right. by apply IH.
Qed.

Lemma dict_comprehension_Return (ms : list MemoryType) cs0 cs :
  dict_comprehension ms cs0 = Return cs →
  NoDup (cs0.*1 ++ ms) →
  ∃ added : dict,
    cs = cs0 ++ added ∧ added.*1 = ms ∧
    ∀ m c, (m, c) ∈ added → get_converter (value m) = Return c.
Proof.
  revert cs0. induction ms as [|m ms IH]; intros cs0; simpl.
  - intros [= <-] _. exists []. rewrite app_nil_r. split_and!; [done..|].
    by intros m c ?%elem_of_nil.
  - destruct (get_converter (value m)) as [c|e] eqn:Hc; [|done].
    intros Hcomp Hnd.
    assert (m ∉ cs0.*1) as Hfresh.
    { apply NoDup_app in Hnd as (_ & Hdis & _). intros Hin.
      apply (Hdis m Hin). left. }
    rewrite (dict_set_fresh _ _ _ Hfresh) in Hcomp.
    apply IH in Hcomp as (added & -> & Hkeys & Hconv).
    + exists ((m, c) :: added). split_and!.
      * by rewrite <-app_assoc.
      * rewrite fmap_cons. simpl. by rewrite Hkeys.
      * intros m' c' [[= -> ->]|Hin]%elem_of_cons; [done|by apply Hconv].
    + rewrite fmap_app. simpl. by rewrite <-app_assoc.
Qed.

Lemma _CONVERTERS_keys cs :
  _CONVERTERS = Return cs →
  cs.*1 = enum MemoryType ∧
  ∀ m c, (m, c) ∈ cs → get_converter (value m) = Return c.
Proof.
  intros Hcs. apply dict_comprehension_Return in Hcs as (added & -> & Hk & Hc).
  - done.
  - simpl. apply NoDup_enum.
Qed.

Lemma _CONVERTERS_lookup cs tgt :
  _CONVERTERS = Return cs →
  ∃ tc, dict_get cs tgt = Some tc ∧ get_converter (value tgt) = Return tc.
Proof.
  intros Hcs. destruct (_CONVERTERS_keys cs Hcs) as [Hkeys Hconv].
  assert (tgt ∈ cs.*1) as Hin by (rewrite Hkeys; apply elem_of_enum).
  apply list_elem_of_fmap in Hin as ([k tc] & -> & Hin). simpl.
  exists tc. split; [|by apply Hconv].
  apply dict_get_elem; [|done]. rewrite Hkeys. apply NoDup_enum.
Qed.

Lemma filter_key_not_elem cs (m : MemoryType) :
  m ∉ cs.*1 → filter (λ entry, entry.1 = m) cs = [].
Proof.
  induction cs as [|[k v] cs IH]; [done|]. rewrite fmap_cons.
  intros [Hne Hl]%not_elem_of_cons. rewrite filter_cons. simpl in *.
  destruct (decide (k = m)) as [->|_]; [done|by apply IH].
Qed.

Lemma filter_key_length_1 cs (m : MemoryType) :
  NoDup cs.*1 → m ∈ cs.*1 → length (filter (λ entry, entry.1 = m) cs) = 1.
Proof.
  induction cs as [|[k v] cs IH]; [by intros _ ?%elem_of_nil|].
  rewrite fmap_cons. intros [Hk Hnd]%NoDup_cons Hin. rewrite filter_cons.
  simpl in *. destruct (decide (k = m)) as [->|Hne]; simpl.
  - by rewrite filter_key_not_elem.
  - apply IH; [done|]. apply elem_of_cons in Hin as [->|]; done.
Qed.

(** ** Generation of the [to_<target>] methods *)

Lemma to_name_inj (a b : MemoryType) : to_name a = to_name b → a = b.
Proof. unfold to_name. simpl. intros [= Hv]. by apply (inj value). Qed.

Lemma generated_lookup cls (ms : list MemoryType) t :
  t ∈ ms →
  foldl (λ cls target_type,
           <[to_name target_type := Generated target_type]> cls) cls ms
    !! to_name t = Some (Generated t).
Proof.
  induction ms as [|m ms IH] using rev_ind; [by intros ?%elem_of_nil|].
  rewrite foldl_snoc. intros [Hin| ->%list_elem_of_singleton]%elem_of_app.
  - destruct (decide (m = t)) as [->|Hne]; [by rewrite lookup_insert_eq|].
    rewrite lookup_insert_ne; [by apply IH|].
    intros Heq. by apply Hne, to_name_inj.
  - by rewrite lookup_insert_eq.
Qed.

Lemma _add_converter_methods_lookup cls t :
  _add_converter_methods cls !! to_name t = Some (Generated t).
Proof. apply generated_lookup, elem_of_enum. Qed.

Lemma Subclass_own_required tc name :
  isinstance_MemoryTypeConverter tc = true →
  name ∈ required_methods → is_Some (own_attrs tc !! name).
Proof.
  destruct tc as [tn fn fd mv extra|]; [intros _|done]. unfold required_methods.
  rewrite !elem_of_cons, elem_of_nil. simpl.
  intros [->|[->|[->|[->|[]]]]]; by simplify_map_eq.
Qed.

Lemma hasattr_generated tc name :
  isinstance_MemoryTypeConverter tc = true →
  name ∈ validated_names →
  hasattr (_add_converter_methods MemoryTypeConverter) tc name = true.
Proof.
  intros Hi [Hreq|Hto]%elem_of_app; unfold hasattr.
  - apply orb_true_iff. left. apply bool_decide_eq_true_2.
    by apply Subclass_own_required.
  - apply list_elem_of_fmap in Hto as (t & -> & _).
    rewrite Hi, _add_converter_methods_lookup. simpl.
    apply orb_true_r.
Qed.

(** ** The validation loop *)

Lemma find_missing_app cls tc (l1 l2 : list string) :
  find_missing cls tc (l1 ++ l2) =
    match find_missing cls tc l1 with
    | Some name => Some name
    | None => find_missing cls tc l2
    end.
Proof.
  induction l1 as [|n l1 IH]; simpl; [done|].
  by destruct (hasattr cls tc n).
Qed.

Lemma find_missing_None cls tc (names : list string) :
  find_missing cls tc names = None ↔
  ∀ name, name ∈ names → hasattr cls tc name = true.
Proof.
  induction names as [|n names IH]; simpl.
  - split; [by intros _ name ?%elem_of_nil|done].
  - destruct (hasattr cls tc n) eqn:Hn.
    + rewrite IH. split.
      * intros Hall name [->|Hin]%elem_of_cons; auto.
      * intros Hall name Hin. apply Hall. by right.
    + split; [done|]. intros Hall. rewrite Hall in Hn; [done|left].
Qed.

Lemma find_missing_Some cls tc (names : list string) name :
  find_missing cls tc names = Some name →
  name ∈ names ∧ hasattr cls tc name = false.
Proof.
  induction names as [|n names IH]; simpl; [done|].
  destruct (hasattr cls tc n) eqn:Hn.
  - intros [Hin Hf]%IH. split; [by right|done].
  - intros [= <-]. split; [left|done].
Qed.

Lemma first_missing_None cls cs :
  first_missing cls cs = None ↔ complete cs cls.
Proof.
  unfold complete. induction cs as [|[mt tc] cs IH]; cbn [first_missing].
  - split; [by intros _ ? ? ? ?%elem_of_nil|done].
  - destruct (find_missing cls tc validated_names) as [n|] eqn:Hf.
    + split; [done|]. intros Hall.
      apply find_missing_Some in Hf as [Hin Hn].
      rewrite (Hall mt tc n) in Hn; [done|left|done].
    + rewrite IH. split.
      * intros Hall mt' c' name [[= -> ->]|Hin]%elem_of_cons Hname.
        -- by eapply find_missing_None.
        -- by eapply Hall.
      * intros Hall mt' c' name Hin. apply (Hall mt' c' name). by right.
Qed.

Lemma first_missing_Some cls cs mt name :
  first_missing cls cs = Some (mt, name) →
  ∃ tc, (mt, tc) ∈ cs ∧ name ∈ validated_names ∧ hasattr cls tc name = false.
Proof.
  induction cs as [|[mt' tc] cs IH]; cbn [first_missing]; [done|].
  destruct (find_missing cls tc validated_names) as [n|] eqn:Hf.
  - intros [= -> ->]. apply find_missing_Some in Hf as [Hin Hn].
    exists tc. split_and!; [left|done..].
  - intros (tc' & Hin & Hrest)%IH. exists tc'. split; [by right|done].
Qed.

Lemma for_names cls mt tc (names : list string) w :
  for_ names (λ method,
      if negb (hasattr cls tc method)
      then raise (missing_method mt method)
      else mret tt) w =
    match find_missing cls tc names return res World Value unit with
    | Some name => Res w [] (Raise (missing_method mt name))
    | None => Res w [] (Return tt)
    end.
Proof.
  induction names as [|n names IH]; simpl; [done|].
  unfold mbind, M_bind, bind. destruct (hasattr cls tc n); simpl; [|done].
  rewrite IH. by destruct (find_missing cls tc names).
Qed.

Lemma bind_run {A B} (m : M A) (k : A → M B) w :
  (m ≫= k) w =
    match out (m w) with
    | Return a =>
        Res (final (k a (final (m w))))
            (events (m w) ++ events (k a (final (m w))))
            (out (k a (final (m w))))
    | Raise e => Res (final (m w)) (events (m w)) (Raise e)
    end.
Proof. done. Qed.

Lemma for_members cls mt tc (ms : list MemoryType) w :
  for_ ms (λ target_type,
      if negb (hasattr cls tc (to_name target_type))
      then raise (missing_method mt (to_name target_type))
      else mret tt) w =
    match find_missing cls tc (to_name <$> ms) return res World Value unit with
    | Some name => Res w [] (Raise (missing_method mt name))
    | None => Res w [] (Return tt)
    end.
Proof.
  induction ms as [|m ms IH]; simpl; [done|].
  rewrite bind_run. destruct (hasattr cls tc (to_name m)); simpl; [|done].
  rewrite IH. by destruct (find_missing _ _ _).
Qed.

Lemma validate_loop cs cls w :
  for_ cs (λ '(mem_type, converter),
    for_ required_methods (λ method,
      if negb (hasattr cls converter method)
      then raise (missing_method mem_type method)
      else mret tt);;
    for_ (enum MemoryType) (λ target_type,
      if negb (hasattr cls converter (to_name target_type))
      then raise (missing_method mem_type (to_name target_type))
      else mret tt)) w =
    match first_missing cls cs return res World Value unit with
    | Some (mt, name) => Res w [] (Raise (missing_method mt name))
    | None => Res w [] (Return tt)
    end.
Proof.
  induction cs as [|[mt tc] cs IH]; cbn [first_missing for_]; [done|].
  unfold validated_names. rewrite find_missing_app.
  rewrite bind_run. rewrite bind_run. rewrite for_names.
  destruct (find_missing cls tc required_methods); cbn [out final events]; [done|].
  rewrite for_members.
  destruct (find_missing cls tc (to_name <$> enum MemoryType));
    cbn [out final events]; [done|].
  rewrite IH. by destruct (first_missing cls cs) as [[]|].
Qed.

(** A run of the validation is decided by [first_missing]. *)
Lemma _validate_converters_run cs cls w :
  _validate_converters cs cls w =
    match first_missing cls cs return res World Value unit with
    | Some (mt, name) => Res w [] (Raise (missing_method mt name))
    | None =>
        Res w [Debug ("âœ… Validated " +:+ pretty (length cs)
                      +:+ " memory type converters")] (Return tt)
    end.
Proof.
  unfold _validate_converters. cbv zeta.
  rewrite bind_run, validate_loop.
  by destruct (first_missing cls cs) as [[]|].
Qed.

(** ** Module initialisation *)

Lemma module_init_run w :
  module_init w =
    match _CONVERTERS with
    | Raise e => Res w [] (Raise e)
    | Return cs =>
        let cls := _add_converter_methods MemoryTypeConverter in
        match first_missing cls cs with
        | Some (mt, name) => Res w [] (Raise (missing_method mt name))
        | None =>
            Res w [Debug ("âœ… Validated " +:+ pretty (length cs)
                          +:+ " memory type converters")] (Return (cs, cls))
        end
    end.
Proof.
  unfold module_init. destruct _CONVERTERS as [cs|e]; [|done]. cbv zeta.
  rewrite bind_run, _validate_converters_run.
  by destruct (first_missing _ cs) as [[]|].
Qed.

Lemma module_init_Return w cs cls :
  out (module_init w) = Return (cs, cls) →
  _CONVERTERS = Return cs ∧
  cls = _add_converter_methods MemoryTypeConverter ∧
  complete cs cls.
Proof.
  rewrite module_init_run. destruct _CONVERTERS as [cs'|e]; [|done]. cbv zeta.
  destruct (first_missing _ cs') as [[]|] eqn:Hm; [done|]. simpl.
  intros [= <- <-]. split_and!; [done..|]. by apply first_missing_None.
Qed.

Lemma hasattr_required_own cls tc name :
  name ∈ required_methods →
  hasattr cls tc name = true → is_Some (own_attrs tc !! name).
Proof.
  intros Hreq. destruct tc as [tn fn fd mv extra|attrs].
  - intros _. by apply Subclass_own_required.
  - unfold hasattr. simpl. rewrite orb_false_r. apply bool_decide_eq_true_1.
Qed.

(** After a successful import every member has a converter in the registry,
    and that converter carries the four primitives. *)
Lemma module_init_target w0 cs cls tgt :
  out (module_init w0) = Return (cs, cls) →
  ∃ tc, dict_get cs tgt = Some tc ∧
        ∀ name, name ∈ required_methods → is_Some (own_attrs tc !! name).
Proof.
  intros (Hcs & -> & Hcomplete)%module_init_Return.
  destruct (_CONVERTERS_lookup cs tgt Hcs) as (tc & Hget & _).
  exists tc. split; [done|]. intros name Hreq.
  apply (hasattr_required_own (_add_converter_methods MemoryTypeConverter));
    [done|].
  apply (Hcomplete tgt tc name); [by apply dict_get_Some|].
  unfold validated_names. apply elem_of_app. by left.
Qed.

(** ** The two tiers on the primitives *)

Lemma dlpack_path_run cs tgt tc (fd mv : prim) data gpu_id w :
  dict_get cs tgt = Some tc →
  own_attrs tc !! "from_dlpack" = Some fd →
  own_attrs tc !! "move_to_device" = Some mv →
  dlpack_path cs tgt data gpu_id w =
    match fd data gpu_id w with
    | (w1, Return result) =>
        Res (mv result gpu_id w1).1
            [Call "from_dlpack" data gpu_id; Call "move_to_device" result gpu_id]
            (mv result gpu_id w1).2
    | (w1, Raise e) => Res w1 [Call "from_dlpack" data gpu_id] (Raise e)
    end.
Proof.
  intros Hc Hfd Hmv. unfold dlpack_path.
  rewrite bind_run, (subscript_found _ _ _ _ Hc). cbn [out final events].
  rewrite bind_run, (call_own _ _ _ _ _ _ Hfd). cbn [out final events].
  destruct (fd data gpu_id w) as [w1 [result|e]]; cbn [fst snd]; [|done].
  by rewrite (call_own _ _ _ _ _ _ Hmv).
Qed.

Lemma cpu_roundtrip_run cs tgt self tc (tn fn : prim) data gpu_id w :
  own_attrs self !! "to_numpy" = Some tn →
  dict_get cs tgt = Some tc →
  own_attrs tc !! "from_numpy" = Some fn →
  cpu_roundtrip cs tgt self data gpu_id w =
    Res (compose_export_import tn fn data gpu_id w).1
        (Call "to_numpy" data gpu_id ::
         match (tn data gpu_id w).2 with
         | Return numpy_data => [Call "from_numpy" numpy_data gpu_id]
         | Raise _ => []
         end)
        (compose_export_import tn fn data gpu_id w).2.
Proof.
  intros Htn Hc Hfn. unfold cpu_roundtrip, compose_export_import.
  rewrite bind_run, (call_own _ _ _ _ _ _ Htn). cbn [out final events].
  destruct (tn data gpu_id w) as [w1 [numpy_data|e]]; cbn [fst snd]; [|done].
  rewrite bind_run, (subscript_found _ _ _ _ Hc). cbn [out final events].
  rewrite (call_own _ _ _ _ _ _ Hfn). by destruct (fn numpy_data gpu_id w1).
Qed.

Lemma cpu_roundtrip_events cs tgt self data gpu_id w ev :
  ev ∈ events (cpu_roundtrip cs tgt self data gpu_id w) →
  is_call "to_numpy" ev || is_call "from_numpy" ev = true.
Proof.
  unfold cpu_roundtrip. rewrite bind_run.
  destruct (out (call self "to_numpy" data gpu_id w)) as [nd|e] eqn:Ho;
    cbn [events].
  - intros [Hin|Hin]%elem_of_app.
    + by apply call_events in Hin as ->.
    + revert Hin. rewrite bind_run.
      destruct (out (subscript cs tgt _)) as [tc|e]; cbn [events];
        rewrite subscript_events; [|by intros ?%elem_of_nil].
      by intros ->%call_events.
  - by intros ->%call_events.
Qed.

Lemma cpu_roundtrip_calls cs tgt self data gpu_id w name :
  name ≠ "to_numpy" → name ≠ "from_numpy" →
  calls name (events (cpu_roundtrip cs tgt self data gpu_id w)) = false.
Proof.
  intros Hn1 Hn2. apply calls_false. intros ev Hev%cpu_roundtrip_events.
  destruct ev as [n d g| |]; simpl in *; [|done..].
  apply bool_decide_eq_false_2. intros ->.
  rewrite !bool_decide_eq_false_2 in Hev by done. done.
Qed.

(** With zero-copy support, a run starts with the events of the zero-copy
    attempt, whatever becomes of it. *)
Lemma method_events_zero_copy cs tgt self data gpu_id w :
  _supports_dlpack data = true →
  ∃ rest, events (method cs tgt self data gpu_id w) =
          events (dlpack_path cs tgt data gpu_id w) ++ rest.
Proof.
  intros Hp. destruct (out (dlpack_path cs tgt data gpu_id w)) as [v|e] eqn:Ho.
  - exists []. by rewrite (method_zero_copy_returns _ _ _ _ _ _ v), app_nil_r.
  - destruct (exn_isinstance_Exception e) eqn:He.
    + eexists. by rewrite (method_zero_copy_caught _ _ _ _ _ _ e).
    + exists []. by rewrite (method_zero_copy_uncaught _ _ _ _ _ _ e), app_nil_r.
Qed.

Lemma dlpack_path_events cs tgt data gpu_id w ev :
  ev ∈ events (dlpack_path cs tgt data gpu_id w) →
  is_call "from_dlpack" ev || is_call "move_to_device" ev = true.
Proof.
  unfold dlpack_path. rewrite bind_run.
  destruct (out (subscript cs tgt w)) as [tc|e]; cbn [events];
    rewrite subscript_events; [|by intros ?%elem_of_nil].
  rewrite app_nil_l, bind_run.
  destruct (out (call tc "from_dlpack" data gpu_id _)) as [result|e]; cbn [events].
  - by intros [->%call_events| ->%call_events]%elem_of_app.
  - by intros ->%call_events.
Qed.

Lemma dlpack_path_calls cs tgt data gpu_id w name :
  name ≠ "from_dlpack" → name ≠ "move_to_device" →
  calls name (events (dlpack_path cs tgt data gpu_id w)) = false.
Proof.
  intros Hn1 Hn2. apply calls_false. intros ev Hev%dlpack_path_events.
  destruct ev as [n d g| |]; simpl in *; [|done..].
  apply bool_decide_eq_false_2. intros ->.
  rewrite !bool_decide_eq_false_2 in Hev by done. done.
Qed.

Lemma dlpack_path_Return cs tgt data gpu_id w v :
  out (dlpack_path cs tgt data gpu_id w) = Return v →
  ∃ tc fd result,
    dict_get cs tgt = Some tc ∧ own_attrs tc !! "from_dlpack" = Some fd ∧
    (fd data gpu_id w).2 = Return result.
Proof.
  unfold dlpack_path, subscript. rewrite bind_run.
  destruct (dict_get cs tgt) as [tc|]; [|done]. cbn [out final events ret].
  rewrite bind_run. unfold call at 1 2 3.
  destruct (own_attrs tc !! "from_dlpack") as [fd|] eqn:Hown; [|done].
  destruct (fd data gpu_id w) as [w1 [result|e]] eqn:Hfd; [|done].
  intros _. exists tc, fd, result. by rewrite Hfd.
Qed.

Lemma cpu_roundtrip_Return_calls cs tgt self data gpu_id w v :
  out (cpu_roundtrip cs tgt self data gpu_id w) = Return v →
  calls "to_numpy" (events (cpu_roundtrip cs tgt self data gpu_id w)) = true.
Proof.
  unfold cpu_roundtrip. rewrite bind_run.
  destruct (own_attrs self !! "to_numpy") as [tn|] eqn:Htn.
  - rewrite (call_own _ _ _ _ _ _ Htn). cbn [out final events].
    destruct (tn data gpu_id w) as [w1 [nd|e]]; cbn [fst snd out events]; [|done].
    intros _. rewrite calls_app. apply orb_true_iff. left. by vm_compute.
  - by rewrite (call_missing _ _ _ _ _ Htn).
Qed.

Lemma calls_not_warning (evs : list event) :
  (∀ ev, ev ∈ evs → ∃ n d g, ev = Call n d g) → existsb is_warning evs = false.
Proof.
  induction evs as [|ev evs IH]; [done|]. intros Hall. simpl.
  destruct (Hall ev) as (n & d & g & ->); [left|]. simpl.
  apply IH. intros ev' Hin. apply Hall. by right.
Qed.

Lemma cpu_roundtrip_no_warning cs tgt self data gpu_id w :
  existsb is_warning (events (cpu_roundtrip cs tgt self data gpu_id w)) = false.
Proof.
  apply calls_not_warning. intros ev Hev%cpu_roundtrip_events.
  destruct ev as [n d g| |]; [by eauto|done..].
Qed.

Lemma dlpack_path_no_warning cs tgt data gpu_id w :
  existsb is_warning (events (dlpack_path cs tgt data gpu_id w)) = false.
Proof.
  apply calls_not_warning. intros ev Hev%dlpack_path_events.
  destruct ev as [n d g| |]; [by eauto|done..].
Qed.

(** ** The two-tier protocol *)

(** C1. In an imported module, for every source converter, target, value and
    device hint, a run of the generated [to_<target>] method calls the target
    converter's [from_dlpack] exactly when the probe reports zero-copy
    support. With support the run opens with [from_dlpack] on the original
    value and hint and, when that returns, continues with [move_to_device] on
    its result; without support the run is the CPU roundtrip alone, with no
    [move_to_device] call and no warning. *)
Theorem zero_copy_attempted_iff_probe w0 cs cls tgt self data gpu_id w :
  out (module_init w0) = Return (cs, cls) →
  let r := method cs tgt self data gpu_id w in
  (calls "from_dlpack" (events r) = true ↔ _supports_dlpack data = true) ∧
  (_supports_dlpack data = true →
     ∃ tc (fd mv : prim) rest,
       dict_get cs tgt = Some tc ∧
       own_attrs tc !! "from_dlpack" = Some fd ∧
       own_attrs tc !! "move_to_device" = Some mv ∧
       events r = Call "from_dlpack" data gpu_id :: rest ∧
       ∀ result, (fd data gpu_id w).2 = Return result →
         ∃ rest', rest = Call "move_to_device" result gpu_id :: rest') ∧
  (_supports_dlpack data = false →
     r = cpu_roundtrip cs tgt self data gpu_id w ∧
     calls "move_to_device" (events r) = false ∧
     existsb is_warning (events r) = false).
Proof.
  intros Hinit r.
  destruct (module_init_target w0 cs cls tgt Hinit) as (tc & Hget & Hown).
  destruct (Hown "from_dlpack") as [fd Hfd]; [unfold required_methods; set_solver|].
  destruct (Hown "move_to_device") as [mv Hmv]; [unfold required_methods; set_solver|].
  assert (_supports_dlpack data = true →
          ∃ rest, events r = Call "from_dlpack" data gpu_id :: rest ∧
            ∀ result, (fd data gpu_id w).2 = Return result →
              ∃ rest', rest = Call "move_to_device" result gpu_id :: rest')
    as Hopen.
  { intros Hp. destruct (method_events_zero_copy cs tgt self data gpu_id w Hp)
      as [suffix Hev].
    subst r. rewrite Hev, (dlpack_path_run _ _ _ _ _ _ _ _ Hget Hfd Hmv).
    destruct (fd data gpu_id w) as [w1 [result|e]]; cbn [events snd].
    - eexists. split; [done|]. intros result' [= <-]. by eexists.
    - eexists. split; [done|]. by intros result' [=]. }
  assert (_supports_dlpack data = false →
          r = cpu_roundtrip cs tgt self data gpu_id w) as Hclosed.
  { intros Hp. by apply method_probe_false. }
  split_and!.
  - split.
    + intros Hcalls. destruct (_supports_dlpack data) eqn:Hp; [done|].
      rewrite (Hclosed eq_refl), cpu_roundtrip_calls in Hcalls; done.
    + intros Hp. destruct (Hopen Hp) as (rest & -> & _). by vm_compute.
  - intros Hp. destruct (Hopen Hp) as (rest & Hev & Hmove).
    by exists tc, fd, mv, rest.
  - intros Hp. rewrite (Hclosed Hp). split_and!; [done| |].
    + by apply cpu_roundtrip_calls.
    + apply cpu_roundtrip_no_warning.
Qed.

(** C2. When the probe reports support and the zero-copy attempt raises an
    instance of [Exception] ([ZeroCopyUnsupportedError] is one), the run of
    the generated method is the attempt, then the warning line, then the CPU
    roundtrip on the original value; its outcome is the roundtrip's outcome,
    so the exception of the attempt does not reach the caller. *)
Theorem zero_copy_failure_falls_back cs tgt self data gpu_id w e :
  _supports_dlpack data = true →
  out (dlpack_path cs tgt data gpu_id w) = Raise e →
  exn_isinstance_Exception e = true →
  let r1 := dlpack_path cs tgt data gpu_id w in
  let r2 := cpu_roundtrip cs tgt self data gpu_id (final r1) in
  method cs tgt self data gpu_id w =
    Res (final r2)
        (events r1 ++ Warning ("DLPack conversion failed: " +:+ exn_str e
                               +:+ ". Using CPU roundtrip.") :: events r2)
        (out r2).
Proof. intros Hp Hr He. by apply method_zero_copy_caught. Qed.

(** C8. The handler of the zero-copy attempt catches [Exception] and nothing
    wider: when the attempt raises an exception that is not an instance of
    [Exception], the generated method raises that same exception, logs no
    warning and never enters the CPU roundtrip. *)
Theorem zero_copy_base_exception_propagates cs tgt self data gpu_id w e :
  _supports_dlpack data = true →
  out (dlpack_path cs tgt data gpu_id w) = Raise e →
  exn_isinstance_Exception e = false →
  let r := method cs tgt self data gpu_id w in
  out r = Raise e ∧
  final r = final (dlpack_path cs tgt data gpu_id w) ∧
  events r = events (dlpack_path cs tgt data gpu_id w) ∧
  existsb is_warning (events r) = false ∧
  calls "to_numpy" (events r) = false ∧
  calls "from_numpy" (events r) = false.
Proof.
  intros Hp Hr He r. subst r.
  rewrite (method_zero_copy_uncaught _ _ _ _ _ _ e Hp Hr He).
  split_and!; [done..| | |].
  - apply dlpack_path_no_warning.
  - by apply dlpack_path_calls.
  - by apply dlpack_path_calls.
Qed.

(** C9. When the target's [from_dlpack] returns a value and the following
    [move_to_device] raises an [Exception], that value is dropped: the run
    continues with the warning and the CPU roundtrip on the original input,
    and the outcome is the export of the original input composed with the
    target's import. *)
Theorem partial_zero_copy_restarts_from_input
    cs tgt self tc (fd mv : prim) data gpu_id w w1 partial w2 e :
  _supports_dlpack data = true →
  dict_get cs tgt = Some tc →
  own_attrs tc !! "from_dlpack" = Some fd →
  own_attrs tc !! "move_to_device" = Some mv →
  fd data gpu_id w = (w1, Return partial) →
  mv partial gpu_id w1 = (w2, Raise e) →
  exn_isinstance_Exception e = true →
  let r2 := cpu_roundtrip cs tgt self data gpu_id w2 in
  method cs tgt self data gpu_id w =
    Res (final r2)
        ([Call "from_dlpack" data gpu_id; Call "move_to_device" partial gpu_id;
          fallback_warning e] ++ events r2)
        (out r2) ∧
  ∀ tn fn : prim,
    own_attrs self !! "to_numpy" = Some tn →
    own_attrs tc !! "from_numpy" = Some fn →
    (final r2, out r2) = compose_export_import tn fn data gpu_id w2 ∧
    ∃ rest, events r2 = Call "to_numpy" data gpu_id :: rest.
Proof.
  intros Hp Hget Hfd Hmv Hrun1 Hrun2 He r2.
  pose proof (dlpack_path_run cs tgt tc fd mv data gpu_id w Hget Hfd Hmv) as Hd.
  rewrite Hrun1, Hrun2 in Hd. cbn [fst snd] in Hd.
  split.
  - rewrite (method_zero_copy_caught _ _ _ _ _ _ e Hp); [|by rewrite Hd|done].
    by rewrite Hd.
  - intros tn fn Htn Hfn. subst r2.
    rewrite (cpu_roundtrip_run _ _ _ _ _ _ _ _ _ Htn Hget Hfn).
    cbn [final out events]. split; [by destruct (compose_export_import _ _ _ _ _)|].
    by eexists.
Qed.

(** C3, as amended. Whenever the generated method reaches its second tier,
    directly or after a caught failure of the zero-copy attempt, its final
    state and outcome are those of the source converter's [to_numpy] composed
    with the target converter's [from_numpy] on the original value and hint.
    A failure of either primitive is the outcome as it was raised: the method
    puts no [MemoryConversionError] around it, and nothing is tried after
    it. *)
Theorem cpu_roundtrip_composes_and_propagates
    cs tgt self tc (tn fn : prim) data gpu_id w :
  own_attrs self !! "to_numpy" = Some tn →
  dict_get cs tgt = Some tc →
  own_attrs tc !! "from_numpy" = Some fn →
  let r := method cs tgt self data gpu_id w in
  (_supports_dlpack data = false →
     (final r, out r) = compose_export_import tn fn data gpu_id w ∧
     ∀ e, (compose_export_import tn fn data gpu_id w).2 = Raise e →
          out r = Raise e) ∧
  (∀ e1, _supports_dlpack data = true →
     out (dlpack_path cs tgt data gpu_id w) = Raise e1 →
     exn_isinstance_Exception e1 = true →
     let w1 := final (dlpack_path cs tgt data gpu_id w) in
     (final r, out r) = compose_export_import tn fn data gpu_id w1 ∧
     ∀ e, (compose_export_import tn fn data gpu_id w1).2 = Raise e →
          out r = Raise e).
Proof.
  intros Htn Hget Hfn r. split.
  - intros Hp. subst r. rewrite (method_probe_false _ _ _ _ _ _ Hp).
    rewrite (cpu_roundtrip_run _ _ _ _ _ _ _ _ _ Htn Hget Hfn).
    cbn [final out]. by destruct (compose_export_import _ _ _ _ _).
  - intros e1 Hp Hr He1 w1. subst r w1.
    rewrite (method_zero_copy_caught _ _ _ _ _ _ e1 Hp Hr He1).
    rewrite (cpu_roundtrip_run _ _ _ _ _ _ _ _ _ Htn Hget Hfn).
    cbn [final out]. by destruct (compose_export_import _ _ _ _ _).
Qed.

(** C6. The CPU roundtrip serves the call whenever either side lacks the
    zero-copy capability: when the probe reports no support for the source
    value, and when the target converter has no [from_dlpack] or its
    [from_dlpack] refuses the value. Conversely a run served by the
    zero-copy tier had both: the probe reported support and the target's
    [from_dlpack] returned. *)
Theorem roundtrip_when_either_side_lacks_zero_copy
    cs tgt self data gpu_id w :
  let r := method cs tgt self data gpu_id w in
  (_supports_dlpack data = false →
     r = cpu_roundtrip cs tgt self data gpu_id w) ∧
  (∀ tc, _supports_dlpack data = true →
     dict_get cs tgt = Some tc →
     target_lacks_import tc data gpu_id w →
     ∃ w1 before,
       let r2 := cpu_roundtrip cs tgt self data gpu_id w1 in
       final r = final r2 ∧ out r = out r2 ∧
       events r = before ++ events r2 ∧
       calls "move_to_device" before = false) ∧
  (served_by_zero_copy r →
     _supports_dlpack data = true ∧
     ∃ tc (fd : prim) result,
       dict_get cs tgt = Some tc ∧
       own_attrs tc !! "from_dlpack" = Some fd ∧
       (fd data gpu_id w).2 = Return result).
Proof.
  intros r. split_and!.
  - intros Hp. by apply method_probe_false.
  - intros tc Hp Hget Hlacks. unfold target_lacks_import in Hlacks.
    assert (∃ e w1 evs,
      dlpack_path cs tgt data gpu_id w = Res w1 evs (Raise e) ∧
      exn_isinstance_Exception e = true ∧
      calls "move_to_device" evs = false) as (e & w1 & evs & Hd & He & Hevs).
    { unfold dlpack_path.
      rewrite bind_run, (subscript_found _ _ _ _ Hget). cbn [out final events].
      rewrite bind_run.
      destruct (own_attrs tc !! "from_dlpack") as [fd|] eqn:Hfd.
      - destruct Hlacks as (e & Hraise & He).
        rewrite (call_own _ _ _ _ _ _ Hfd), Hraise. cbn [out final events].
        by exists e, (fd data gpu_id w).1, [Call "from_dlpack" data gpu_id].
      - rewrite (call_missing _ _ _ _ _ Hfd). cbn [out final events].
        by exists (AttributeError "from_dlpack"), w, []. }
    exists w1, (evs ++ [fallback_warning e]). subst r.
    rewrite (method_zero_copy_caught _ _ _ _ _ _ e Hp); [|by rewrite Hd|done].
    rewrite Hd. cbn [final out events]. split_and!; [done..| |].
    + by rewrite <-app_assoc.
    + by rewrite calls_app, Hevs.
  - intros [[v Hv] Hnot]. subst r.
    destruct (_supports_dlpack data) eqn:Hp.
    + split; [done|].
      destruct (out (dlpack_path cs tgt data gpu_id w)) as [v'|e] eqn:Ho.
      * by apply dlpack_path_Return in Ho.
      * exfalso. destruct (exn_isinstance_Exception e) eqn:He.
        -- rewrite (method_zero_copy_caught _ _ _ _ _ _ e Hp Ho He) in Hv, Hnot.
           cbn [out events] in Hv, Hnot.
           apply cpu_roundtrip_Return_calls in Hv.
           rewrite calls_app in Hnot. apply orb_false_iff in Hnot as [_ Hnot].
           simpl in Hnot. by rewrite Hv in Hnot.
        -- rewrite (method_zero_copy_uncaught _ _ _ _ _ _ e Hp Ho He) in Hv.
           by rewrite Ho in Hv.
    + exfalso. rewrite (method_probe_false _ _ _ _ _ _ Hp) in Hv, Hnot.
      apply cpu_roundtrip_Return_calls in Hv. by rewrite Hv in Hnot.
Qed.

(** C5, as amended. When the source converter is the registry's converter
    for the target, the generated method takes no shortcut: it runs the same
    two tiers with the converter as its own target and with the caller's
    device hint. Without zero-copy support the outcome is the converter's
    [from_numpy] after its [to_numpy], whose failures are raised; with
    support, and [from_dlpack] and [move_to_device] returning, the outcome is
    [move_to_device] of [from_dlpack] of the value. The result is the input
    value when the primitives on the path taken return their argument. *)
Theorem same_framework_runs_both_tiers
    cs tgt self (tn fn fd mv : prim) data gpu_id w :
  dict_get cs tgt = Some self →
  own_attrs self !! "to_numpy" = Some tn →
  own_attrs self !! "from_numpy" = Some fn →
  own_attrs self !! "from_dlpack" = Some fd →
  own_attrs self !! "move_to_device" = Some mv →
  let r := method cs tgt self data gpu_id w in
  (_supports_dlpack data = false →
     (final r, out r) = compose_export_import tn fn data gpu_id w ∧
     calls "to_numpy" (events r) = true ∧
     calls "move_to_device" (events r) = false) ∧
  (_supports_dlpack data = true →
     ∀ w1 result w2 moved,
       fd data gpu_id w = (w1, Return result) →
       mv result gpu_id w1 = (w2, Return moved) →
       r = Res w2 [Call "from_dlpack" data gpu_id;
                   Call "move_to_device" result gpu_id] (Return moved)) ∧
  (_supports_dlpack data = true →
     (fd data gpu_id w).2 = Return data →
     (mv data gpu_id (fd data gpu_id w).1).2 = Return data →
     out r = Return data) ∧
  (_supports_dlpack data = false →
     (compose_export_import tn fn data gpu_id w).2 = Return data →
     out r = Return data).
Proof.
  intros Hget Htn Hfn Hfd Hmv r.
  assert (_supports_dlpack data = false →
          r = Res (compose_export_import tn fn data gpu_id w).1
                (Call "to_numpy" data gpu_id ::
                 match (tn data gpu_id w).2 with
                 | Return numpy_data => [Call "from_numpy" numpy_data gpu_id]
                 | Raise _ => []
                 end)
                (compose_export_import tn fn data gpu_id w).2) as Hcold.
  { intros Hp. subst r. rewrite (method_probe_false _ _ _ _ _ _ Hp).
    by apply cpu_roundtrip_run with (tc := self). }
  assert (_supports_dlpack data = true →
          ∀ w1 result w2 moved,
            fd data gpu_id w = (w1, Return result) →
            mv result gpu_id w1 = (w2, Return moved) →
            r = Res w2 [Call "from_dlpack" data gpu_id;
                        Call "move_to_device" result gpu_id] (Return moved))
    as Hwarm.
  { intros Hp w1 result w2 moved Hrun1 Hrun2. subst r.
    pose proof (dlpack_path_run cs tgt self fd mv data gpu_id w Hget Hfd Hmv)
      as Hd.
    rewrite Hrun1, Hrun2 in Hd. cbn [fst snd] in Hd.
    rewrite (method_zero_copy_returns _ _ _ _ _ _ moved Hp); [done|].
    by rewrite Hd. }
  split_and!.
  - intros Hp. rewrite (Hcold Hp). cbn [final out events]. split_and!.
    + by destruct (compose_export_import _ _ _ _ _).
    + by vm_compute.
    + destruct ((tn data gpu_id w).2); by vm_compute.
  - done.
  - intros Hp Hrun1 Hrun2.
    destruct (fd data gpu_id w) as [w1 o1] eqn:E1. simpl in Hrun1, Hrun2.
    destruct (mv data gpu_id w1) as [w2 o2] eqn:E2. simpl in Hrun2. subst o1 o2.
    by rewrite (Hwarm Hp w1 data w2 data eq_refl E2).
  - intros Hp Hrun. by rewrite (Hcold Hp).
Qed.

(** ** The registry and its validation *)

Lemma hasattr_getattr cls tc name :
  hasattr cls tc name = true ↔ is_Some (getattr cls tc name).
Proof.
  unfold hasattr, getattr.
  destruct (own_attrs tc !! name) as [f|]; simpl.
  - split; [by eauto|done].
  - destruct (isinstance_MemoryTypeConverter tc); simpl.
    + rewrite bool_decide_eq_true, fmap_is_Some. done.
    + split; [done|]. by intros [? ?].
Qed.

Lemma validated_names_spec name :
  name ∈ validated_names ↔
  name = "to_numpy" ∨ name = "from_numpy" ∨ name = "from_dlpack" ∨
  name = "move_to_device" ∨ ∃ target, name = to_name target.
Proof.
  unfold validated_names, required_methods.
  rewrite elem_of_app, !elem_of_cons, elem_of_nil, list_elem_of_fmap.
  split.
  - intros [[->|[->|[->|[->|[]]]]]|(t & -> & _)]; eauto 6.
  - intros [->|[->|[->|[->|(t & ->)]]]]; eauto 6 using elem_of_enum.
Qed.

(** C4. The validation returns when every registered converter has
    [to_numpy], [from_numpy], [from_dlpack], [move_to_device] and a
    [to_<target>] for every member, and the import then returns the
    registry and the class. As soon as one registered converter lacks any
    one of these, the validation raises a [RuntimeError] naming a registered
    converter and an attribute it lacks, nothing is logged, and the import
    raises that error: the module, with its registry and its conversion
    methods, does not come into existence. *)
Theorem validation_fails_fast cs cls w :
  ((∀ mt tc, (mt, tc) ∈ cs →
      hasattr cls tc "to_numpy" = true ∧
      hasattr cls tc "from_numpy" = true ∧
      hasattr cls tc "from_dlpack" = true ∧
      hasattr cls tc "move_to_device" = true ∧
      ∀ target, hasattr cls tc (to_name target) = true) →
   out (_validate_converters cs cls w) = Return tt ∧
   (_CONVERTERS = Return cs →
    cls = _add_converter_methods MemoryTypeConverter →
    out (module_init w) = Return (cs, cls))) ∧
  (∀ mt tc name,
     (mt, tc) ∈ cs →
     name = "to_numpy" ∨ name = "from_numpy" ∨ name = "from_dlpack" ∨
     name = "move_to_device" ∨ (∃ target, name = to_name target) →
     hasattr cls tc name = false →
     ∃ mt' tc' name',
       (mt', tc') ∈ cs ∧ hasattr cls tc' name' = false ∧
       _validate_converters cs cls w =
         Res w [] (Raise (RuntimeError
                            (value mt' +:+ " converter missing method: "
                             +:+ name'))) ∧
       (_CONVERTERS = Return cs →
        cls = _add_converter_methods MemoryTypeConverter →
        module_init w =
          Res w [] (Raise (RuntimeError
                             (value mt' +:+ " converter missing method: "
                              +:+ name'))))).
Proof.
  split.
  - intros Hall.
    assert (first_missing cls cs = None) as Hnone.
    { apply first_missing_None. intros mt tc name Hin Hname.
      destruct (Hall mt tc Hin) as (H1 & H2 & H3 & H4 & Hto).
      apply validated_names_spec in Hname
        as [->|[->|[->|[->|(t & ->)]]]]; auto. }
    split.
    + by rewrite _validate_converters_run, Hnone.
    + intros Hcs ->. rewrite module_init_run, Hcs. cbv zeta. by rewrite Hnone.
  - intros mt tc name Hin Hname%validated_names_spec Hno.
    destruct (first_missing cls cs) as [[mt' name']|] eqn:Hm.
    + pose proof Hm as (tc' & Hin' & _ & Hno')%first_missing_Some.
      exists mt', tc', name'. split_and!; [done..| |].
      * by rewrite _validate_converters_run, Hm.
      * intros Hcs ->. rewrite module_init_run, Hcs. cbv zeta. by rewrite Hm.
    + apply first_missing_None in Hm.
      by rewrite (Hm mt tc name Hin Hname) in Hno.
Qed.


(** C10. The registry built at import has the members of the enumeration as
    its keys, in order, each exactly once, with the converter
    [get_converter] returned for the member's value; so [_CONVERTERS[tgt]]
    returns a converter for every target and never raises [KeyError]. *)
Theorem registry_covers_enumeration cs :
  _CONVERTERS = Return cs →
  cs.*1 = enum MemoryType ∧
  (∀ m, length (filter (λ entry, entry.1 = m) cs) = 1) ∧
  (∀ tgt w, ∃ tc,
     get_converter (value tgt) = Return tc ∧
     subscript cs tgt w = Res w [] (Return tc)).
Proof.
  intros Hcs. destruct (_CONVERTERS_keys cs Hcs) as [Hkeys Hconv].
  split_and!; [done| |].
  - intros m. apply filter_key_length_1; rewrite Hkeys.
    + apply NoDup_enum.
    + apply elem_of_enum.
  - intros tgt w. destruct (_CONVERTERS_lookup cs tgt Hcs) as (tc & Hget & Hc).
    exists tc. split; [done|]. by apply subscript_found.
Qed.

End Properties.

(** * The properties on the concrete package *)

(** Closed goals about the concrete package are settled by running it. *)
Ltac by_running := vm_compute; reflexivity.

(** Witness of C1: a CuPy array converted to Torch in the sample package. *)
Lemma zero_copy_attempted_iff_probe_witness :
  out (module_init (H := Demo.package) 0) =
    Return (Demo.registry,
            _add_converter_methods (H := Demo.package) MemoryTypeConverter) ∧
  (calls "from_dlpack"
     (events (method (H := Demo.package) Demo.registry Demo.TORCH
                (Demo.converter_of Demo.CUPY) (Demo.Array Demo.CUPY 7) 0 0))
   = true ↔ Demo.exports_dlpack (Demo.Array Demo.CUPY 7) = true).
Proof.
  assert (out (module_init (H := Demo.package) 0) =
          Return (Demo.registry,
                  _add_converter_methods (H := Demo.package) MemoryTypeConverter))
    as Hinit by by_running.
  split; [exact Hinit|].
  pose proof (zero_copy_attempted_iff_probe (H := Demo.package) 0 Demo.registry
                _ Demo.TORCH (Demo.converter_of Demo.CUPY)
                (Demo.Array Demo.CUPY 7) 0 0 Hinit) as P.
  cbv zeta in P. exact (proj1 P).
Defined.

(** Witness of C2: pyclesperanto refuses the capsule with
    [ZeroCopyUnsupportedError]; the call returns the roundtrip's array. *)
Lemma zero_copy_failure_falls_back_witness :
  method (H := Demo.package) Demo.registry Demo.PYCLESPERANTO
    (Demo.converter_of Demo.CUPY) (Demo.Array Demo.CUPY 7) 0 0 =
  Res 2 [Call "from_dlpack" (Demo.Array Demo.CUPY 7) 0;
         Warning "DLPack conversion failed: no DLPack import. Using CPU roundtrip.";
         Call "to_numpy" (Demo.Array Demo.CUPY 7) 0;
         Call "from_numpy" (Demo.Array Demo.NUMPY 7) 0]
        (Return (Demo.Array Demo.PYCLESPERANTO 7)).
Proof.
  rewrite (zero_copy_failure_falls_back (H := Demo.package) Demo.registry
             Demo.PYCLESPERANTO (Demo.converter_of Demo.CUPY)
             (Demo.Array Demo.CUPY 7) 0 0
             (ZeroCopyUnsupportedError "no DLPack import")); by_running.
Defined.

(** Witness of C8: a [KeyboardInterrupt] during the import of the capsule. *)
Lemma zero_copy_base_exception_propagates_witness :
  out (method (H := Demo.package) [(Demo.TORCH, Demo.interrupted)] Demo.TORCH
         (Demo.converter_of Demo.CUPY) (Demo.Array Demo.CUPY 7) 0 0)
    = Raise KeyboardInterrupt ∧
  calls "to_numpy"
    (events (method (H := Demo.package) [(Demo.TORCH, Demo.interrupted)]
               Demo.TORCH (Demo.converter_of Demo.CUPY)
               (Demo.Array Demo.CUPY 7) 0 0)) = false.
Proof.
  pose proof (zero_copy_base_exception_propagates (H := Demo.package)
                [(Demo.TORCH, Demo.interrupted)] Demo.TORCH
                (Demo.converter_of Demo.CUPY) (Demo.Array Demo.CUPY 7) 0 0
                KeyboardInterrupt) as P.
  cbv zeta in P.
  destruct P as (Hout & _ & _ & _ & Hno & _); [by_running..|].
  split; [exact Hout|exact Hno].
Defined.

(** Witness of C9: the capsule is imported, the move to device -1 is refused,
    the roundtrip starts again from the CuPy array. *)
Lemma partial_zero_copy_restarts_from_input_witness :
  method (H := Demo.package) Demo.registry Demo.TORCH
    (Demo.converter_of Demo.CUPY) (Demo.Array Demo.CUPY 7) (-1) 0 =
  Res 2 [Call "from_dlpack" (Demo.Array Demo.CUPY 7) (-1);
         Call "move_to_device" (Demo.Array Demo.TORCH 7) (-1);
         Warning "DLPack conversion failed: invalid device. Using CPU roundtrip.";
         Call "to_numpy" (Demo.Array Demo.CUPY 7) (-1);
         Call "from_numpy" (Demo.Array Demo.NUMPY 7) (-1)]
        (Return (Demo.Array Demo.TORCH 7)).
Proof.
  pose proof (partial_zero_copy_restarts_from_input (H := Demo.package)
                Demo.registry Demo.TORCH (Demo.converter_of Demo.CUPY)
                (Demo.converter_of Demo.TORCH)
                (Demo.from_dlpack_of Demo.TORCH) Demo.move_to_device_of
                (Demo.Array Demo.CUPY 7) (-1) 0 0 (Demo.Array Demo.TORCH 7) 0
                (ValueError "invalid device")) as P.
  cbv zeta in P. destruct P as [Hrun _]; [by_running..|].
  rewrite Hrun. by_running.
Defined.

(** Counterexample to C3 as stated: an array whose export to NumPy fails
    with a [ValueError]. The generated method raises that [ValueError]
    itself; what it raises is not a [MemoryConversionError] with the
    [ValueError] as its cause. *)
Lemma cpu_roundtrip_failure_not_wrapped :
  Demo.exports_dlpack (Demo.Array Demo.PYCLESPERANTO 3) = false ∧
  out (method (H := Demo.package) Demo.registry Demo.NUMPY Demo.failing_export
         (Demo.Array Demo.PYCLESPERANTO 3) 0 0)
    = Raise (ValueError "unsupported dtype") ∧
  ¬ ∃ e',
      out (method (H := Demo.package) Demo.registry Demo.NUMPY
             Demo.failing_export (Demo.Array Demo.PYCLESPERANTO 3) 0 0)
        = Raise e' ∧
      wraps_as_MemoryConversionError e' (ValueError "unsupported dtype").
Proof.
  split; [reflexivity|]. split; [by_running|].
  intros (e' & Hout & Hclass & _).
  vm_compute in Hout. injection Hout as <-. discriminate Hclass.
Qed.

(** Witness of C3 as amended, on the same call. *)
Lemma cpu_roundtrip_composes_and_propagates_witness :
  out (method (H := Demo.package) Demo.registry Demo.NUMPY Demo.failing_export
         (Demo.Array Demo.PYCLESPERANTO 3) 0 0)
    = Raise (ValueError "unsupported dtype").
Proof.
  pose proof (cpu_roundtrip_composes_and_propagates (H := Demo.package)
                Demo.registry Demo.NUMPY Demo.failing_export
                (Demo.converter_of Demo.NUMPY)
                (λ _ _ copies, (copies, Raise (ValueError "unsupported dtype")))
                (Demo.from_numpy_of Demo.NUMPY)
                (Demo.Array Demo.PYCLESPERANTO 3) 0 0) as P.
  cbv zeta in P. destruct P as [Hcold _]; [by_running..|].
  destruct Hcold as [_ Hraise]; [reflexivity|].
  apply Hraise. by_running.
Defined.

(** Counterexample to C5 as stated: the source converter is the registry's
    converter for the target, [move_to_device] would return the value
    unchanged, and yet the generated method enters the CPU roundtrip, never
    calls [move_to_device], and raises. *)
Lemma same_framework_not_a_noop :
  dict_get (H := Demo.package) [(Demo.PYCLESPERANTO, Demo.failing_export)]
    Demo.PYCLESPERANTO = Some Demo.failing_export ∧
  Demo.move_to_device_of (Demo.Array Demo.PYCLESPERANTO 3) 0 0
    = (0, Return (Demo.Array Demo.PYCLESPERANTO 3)) ∧
  method (H := Demo.package) [(Demo.PYCLESPERANTO, Demo.failing_export)]
    Demo.PYCLESPERANTO Demo.failing_export
    (Demo.Array Demo.PYCLESPERANTO 3) 0 0
  = Res 0 [Call "to_numpy" (Demo.Array Demo.PYCLESPERANTO 3) 0]
        (Raise (ValueError "unsupported dtype")) ∧
  ¬ (out (method (H := Demo.package)
            [(Demo.PYCLESPERANTO, Demo.failing_export)]
            Demo.PYCLESPERANTO Demo.failing_export
            (Demo.Array Demo.PYCLESPERANTO 3) 0 0)
       = Return (Demo.Array Demo.PYCLESPERANTO 3) ∧
     calls "to_numpy"
       (events (method (H := Demo.package)
                  [(Demo.PYCLESPERANTO, Demo.failing_export)]
                  Demo.PYCLESPERANTO Demo.failing_export
                  (Demo.Array Demo.PYCLESPERANTO 3) 0 0)) = false).
Proof.
  split; [by_running|]. split; [reflexivity|].
  split; [by_running|].
  intros [Hout _]. vm_compute in Hout. discriminate Hout.
Qed.

(** Witness of C5 as amended: in the sample package a Torch array
    converted to Torch goes through the zero-copy tier. *)
Lemma same_framework_runs_both_tiers_witness :
  method (H := Demo.package) Demo.registry Demo.TORCH
    (Demo.converter_of Demo.TORCH) (Demo.Array Demo.TORCH 7) 0 0 =
  Res 0 [Call "from_dlpack" (Demo.Array Demo.TORCH 7) 0;
         Call "move_to_device" (Demo.Array Demo.TORCH 7) 0]
        (Return (Demo.Array Demo.TORCH 7)).
Proof.
  pose proof (same_framework_runs_both_tiers (H := Demo.package)
                Demo.registry Demo.TORCH (Demo.converter_of Demo.TORCH)
                Demo.to_numpy_of (Demo.from_numpy_of Demo.TORCH)
                (Demo.from_dlpack_of Demo.TORCH) Demo.move_to_device_of
                (Demo.Array Demo.TORCH 7) 0 0) as P.
  cbv zeta in P. destruct P as (_ & Hwarm & _); [by_running..|].
  apply (Hwarm eq_refl 0 (Demo.Array Demo.TORCH 7) 0 (Demo.Array Demo.TORCH 7));
    reflexivity.
Defined.

(** Witness of C6: the target side, pyclesperanto, lacks the import. *)
Lemma roundtrip_when_either_side_lacks_zero_copy_witness :
  Demo.exports_dlpack (Demo.Array Demo.CUPY 7) = true ∧
  target_lacks_import (Demo.converter_of Demo.PYCLESPERANTO)
    (Demo.Array Demo.CUPY 7) 0 0 ∧
  ∃ w1 before,
    out (method (H := Demo.package) Demo.registry Demo.PYCLESPERANTO
           (Demo.converter_of Demo.CUPY) (Demo.Array Demo.CUPY 7) 0 0)
      = out (cpu_roundtrip (H := Demo.package) Demo.registry Demo.PYCLESPERANTO
               (Demo.converter_of Demo.CUPY) (Demo.Array Demo.CUPY 7) 0 w1) ∧
    events (method (H := Demo.package) Demo.registry Demo.PYCLESPERANTO
              (Demo.converter_of Demo.CUPY) (Demo.Array Demo.CUPY 7) 0 0)
      = before ++
        events (cpu_roundtrip (H := Demo.package) Demo.registry
                  Demo.PYCLESPERANTO (Demo.converter_of Demo.CUPY)
                  (Demo.Array Demo.CUPY 7) 0 w1).
Proof.
  assert (target_lacks_import (Demo.converter_of Demo.PYCLESPERANTO)
            (Demo.Array Demo.CUPY 7) 0 0) as Hlacks.
  { exists (ZeroCopyUnsupportedError "no DLPack import").
    split; reflexivity. }
  split; [reflexivity|]. split; [exact Hlacks|].
  pose proof (roundtrip_when_either_side_lacks_zero_copy (H := Demo.package)
                Demo.registry Demo.PYCLESPERANTO (Demo.converter_of Demo.CUPY)
                (Demo.Array Demo.CUPY 7) 0 0) as P.
  cbv zeta in P. destruct P as (_ & Htarget & _).
  destruct (Htarget (Demo.converter_of Demo.PYCLESPERANTO) eq_refl)
    as (w1 & before & _ & Hout & Hev & _); [by_running|exact Hlacks|].
  exists w1, before. split; [exact Hout|exact Hev].
Defined.

(** Witness of C4: with [duck] registered for JAX, which has no
    [from_dlpack], the import raises, and the error names JAX and
    [from_dlpack]. *)
Lemma validation_fails_fast_witness :
  hasattr (H := Demo.package_with_duck)
    (_add_converter_methods (H := Demo.package_with_duck) MemoryTypeConverter)
    Demo.duck "from_dlpack" = false ∧
  module_init (H := Demo.package_with_duck) 0 =
    Res 0 [] (Raise (RuntimeError "jax converter missing method: from_dlpack")).
Proof.
  assert (hasattr (H := Demo.package_with_duck)
            (_add_converter_methods (H := Demo.package_with_duck)
               MemoryTypeConverter)
            Demo.duck "from_dlpack" = false) as Hno by by_running.
  split; [exact Hno|].
  pose proof (validation_fails_fast (H := Demo.package_with_duck)
                (<[4%nat := (Demo.JAX, Demo.duck)]> Demo.registry)
                (_add_converter_methods (H := Demo.package_with_duck)
                   MemoryTypeConverter) 0) as [_ Hraise].
  destruct (Hraise Demo.JAX Demo.duck "from_dlpack")
    as (mt' & tc' & name' & _ & _ & _ & Hinit).
  - vm_compute. do 4 right. left.
  - right; right; left. reflexivity.
  - exact Hno.
  - specialize (Hinit ltac:(by_running) eq_refl).
    assert (module_init (H := Demo.package_with_duck) 0 =
            Res 0 [] (Raise (RuntimeError
                               "jax converter missing method: from_dlpack")))
      as Hrun by by_running.
    rewrite Hinit. rewrite Hinit in Hrun. exact Hrun.
Defined.



(** Witness of C10 on the sample package. *)
Lemma registry_covers_enumeration_witness :
  _CONVERTERS (H := Demo.package) = Return Demo.registry ∧
  Demo.registry.*1 = Demo.members ∧
  ∃ tc, subscript (H := Demo.package) Demo.registry Demo.JAX 0
        = Res 0 [] (Return tc).
Proof.
  assert (_CONVERTERS (H := Demo.package) = Return Demo.registry) as Hcs
    by by_running.
  split; [exact Hcs|].
  destruct (registry_covers_enumeration (H := Demo.package) Demo.registry Hcs)
    as (Hkeys & _ & Hsub).
  split; [exact Hkeys|].
  destruct (Hsub Demo.JAX 0) as (tc & _ & Htc). exists tc. exact Htc.
Defined.

(** * Further properties of the module *)

Section Further.
Context {World Value : Type} `{Imports World Value}.

Local Abbreviation event := (event Value).
Local Abbreviation M := (M World Value).
Local Abbreviation converter := (converter World Value).
Local Abbreviation prim := (prim World Value).
Local Abbreviation dict := (list (MemoryType * converter)).

Implicit Types (cs : dict) (cls : gmap string abc_attr) (tgt : MemoryType).
Implicit Types (self tc : converter) (data : Value) (gpu_id : Z) (w : World).

(** ** Shapes of the event lists *)

Lemma dlpack_path_events_shape cs tgt data gpu_id w :
  events (dlpack_path cs tgt data gpu_id w) = [] ∨
  events (dlpack_path cs tgt data gpu_id w) = [Call "from_dlpack" data gpu_id] ∨
  ∃ result, events (dlpack_path cs tgt data gpu_id w) =
              [Call "from_dlpack" data gpu_id;
               Call "move_to_device" result gpu_id].
Proof.
  unfold dlpack_path, subscript. rewrite bind_run.
  destruct (dict_get cs tgt) as [tc|]; cbn [out final events ret raise];
    [|by left].
  rewrite bind_run.
  destruct (own_attrs tc !! "from_dlpack") as [fd|] eqn:Hfd.
  - rewrite (call_own _ _ _ _ _ _ Hfd). cbn [out final events].
    destruct (fd data gpu_id w) as [w1 [result|e]]; cbn [fst snd];
      [|by right; left].
    destruct (own_attrs tc !! "move_to_device") as [mv|] eqn:Hmv.
    + right; right. exists result. by rewrite (call_own _ _ _ _ _ _ Hmv).
    + right; left. by rewrite (call_missing _ _ _ _ _ Hmv).
  - left. by rewrite (call_missing _ _ _ _ _ Hfd).
Qed.

Lemma cpu_roundtrip_events_shape cs tgt self data gpu_id w :
  events (cpu_roundtrip cs tgt self data gpu_id w) = [] ∨
  events (cpu_roundtrip cs tgt self data gpu_id w) = [Call "to_numpy" data gpu_id] ∨
  ∃ numpy_data, events (cpu_roundtrip cs tgt self data gpu_id w) =
                  [Call "to_numpy" data gpu_id;
                   Call "from_numpy" numpy_data gpu_id].
Proof.
  unfold cpu_roundtrip. rewrite bind_run.
  destruct (own_attrs self !! "to_numpy") as [tn|] eqn:Htn.
  - rewrite (call_own _ _ _ _ _ _ Htn). cbn [out final events].
    destruct (tn data gpu_id w) as [w1 [numpy_data|e]]; cbn [fst snd];
      [|by right; left].
    rewrite bind_run. unfold subscript.
    destruct (dict_get cs tgt) as [tc|]; cbn [out final events ret raise];
      [|by right; left].
    destruct (own_attrs tc !! "from_numpy") as [fn|] eqn:Hfn.
    + right; right. exists numpy_data. by rewrite (call_own _ _ _ _ _ _ Hfn).
    + right; left. by rewrite (call_missing _ _ _ _ _ Hfn).
  - left. by rewrite (call_missing _ _ _ _ _ Htn).
Qed.

(** Every run of the generated method is the zero-copy attempt alone, or
    the CPU roundtrip alone, or the attempt, one warning and the
    roundtrip. *)
Lemma method_events_cases cs tgt self data gpu_id w :
  let r := method cs tgt self data gpu_id w in
  (_supports_dlpack data = false ∧
   events r = events (cpu_roundtrip cs tgt self data gpu_id w)) ∨
  (_supports_dlpack data = true ∧
   events r = events (dlpack_path cs tgt data gpu_id w)) ∨
  (_supports_dlpack data = true ∧
   ∃ e w1,
     out (dlpack_path cs tgt data gpu_id w) = Raise e ∧
     exn_isinstance_Exception e = true ∧
     events r = events (dlpack_path cs tgt data gpu_id w) ++
                fallback_warning e ::
                events (cpu_roundtrip cs tgt self data gpu_id w1)).
Proof.
  intros r. subst r. destruct (_supports_dlpack data) eqn:Hp.
  - destruct (out (dlpack_path cs tgt data gpu_id w)) as [v|e] eqn:Ho.
    + right; left. by rewrite (method_zero_copy_returns _ _ _ _ _ _ v).
    + destruct (exn_isinstance_Exception e) eqn:He.
      * right; right. split; [done|]. exists e. eexists.
        split_and!; [done..|].
        by rewrite (method_zero_copy_caught _ _ _ _ _ _ e).
      * right; left. by rewrite (method_zero_copy_uncaught _ _ _ _ _ _ e).
  - left. by rewrite method_probe_false.
Qed.

(** ** What a run of the generated method does and never does *)

(** Goals about a run whose events are a known list. *)
Ltac settle_events :=
  unfold called, warnings, fallback_warning; simpl;
  split_and!;
  [ repeat first [apply sublist_nil | apply sublist_skip | apply sublist_cons]
  | lia
  | intros d g Hin; repeat (apply elem_of_cons in Hin as [Hin|Hin]);
    first [by apply elem_of_nil in Hin | by simplify_eq]
  | intros d g Hin; repeat (apply elem_of_cons in Hin as [Hin|Hin]);
    first [by apply elem_of_nil in Hin | by simplify_eq] ].

(** X1. Every primitive a run calls is one of the four and receives the
    caller's device hint; a run logs nothing at debug level. *)
Theorem every_call_gets_the_device_hint cs tgt self data gpu_id w :
  Forall (λ ev, match ev with
                | Call name _ g => g = gpu_id ∧ name ∈ required_methods
                | Warning _ => True
                | Debug _ => False
                end)
         (events (method cs tgt self data gpu_id w)).
Proof.
  assert (∀ name, name = "to_numpy" ∨ name = "from_numpy" ∨
                  name = "from_dlpack" ∨ name = "move_to_device" →
                  name ∈ required_methods) as Hreq.
  { intros name [->|[->|[->| ->]]]; unfold required_methods; set_solver. }
  destruct (method_events_cases cs tgt self data gpu_id w)
    as [[_ ->]|[[_ ->]|[_ (e & w1 & _ & _ & ->)]]].
  - destruct (cpu_roundtrip_events_shape cs tgt self data gpu_id w)
      as [->|[->|[nd ->]]]; repeat constructor; auto.
  - destruct (dlpack_path_events_shape cs tgt data gpu_id w)
      as [->|[->|[result ->]]]; repeat constructor; auto.
  - apply Forall_app. split.
    + destruct (dlpack_path_events_shape cs tgt data gpu_id w)
        as [->|[->|[result ->]]]; repeat constructor; auto.
    + constructor; [done|].
      destruct (cpu_roundtrip_events_shape cs tgt self data gpu_id w1)
        as [->|[->|[nd ->]]]; repeat constructor; auto.
Qed.

(** X2. In one run each primitive is called at most once, and in the order
    [from_dlpack], [move_to_device], [to_numpy], [from_numpy]; at most one
    warning is logged. A call of [from_dlpack] or of [to_numpy] is on the
    value the caller passed. *)
Theorem primitives_called_once_in_order cs tgt self data gpu_id w :
  let r := method cs tgt self data gpu_id w in
  called (events r)
    `sublist_of` ["from_dlpack"; "move_to_device"; "to_numpy"; "from_numpy"] ∧
  (length (warnings (events r)) ≤ 1)%nat ∧
  (∀ d g, Call "from_dlpack" d g ∈ events r → d = data) ∧
  (∀ d g, Call "to_numpy" d g ∈ events r → d = data).
Proof.
  intros r. subst r.
  pose proof (dlpack_path_events_shape cs tgt data gpu_id w) as Hd.
  destruct (method_events_cases cs tgt self data gpu_id w)
    as [[_ ->]|[[_ ->]|[_ (e & w1 & _ & _ & ->)]]].
  - clear Hd.
    destruct (cpu_roundtrip_events_shape cs tgt self data gpu_id w)
      as [->|[->|[nd ->]]]; settle_events.
  - destruct Hd as [->|[->|[result ->]]]; settle_events.
  - destruct Hd as [->|[->|[result ->]]];
      destruct (cpu_roundtrip_events_shape cs tgt self data gpu_id w1)
        as [->|[->|[nd ->]]]; settle_events.
Qed.

(** X3. When the probe reports support and the target's [from_dlpack] and
    [move_to_device] both return, the run is those two calls and nothing
    else, whatever the source converter is: its [to_numpy] is not looked up,
    no host copy is made, nothing is logged. *)
Theorem zero_copy_success_bypasses_source
    cs tgt tc (fd mv : prim) data gpu_id w w1 result w2 moved :
  _supports_dlpack data = true →
  dict_get cs tgt = Some tc →
  own_attrs tc !! "from_dlpack" = Some fd →
  own_attrs tc !! "move_to_device" = Some mv →
  fd data gpu_id w = (w1, Return result) →
  mv result gpu_id w1 = (w2, Return moved) →
  ∀ self,
    method cs tgt self data gpu_id w =
      Res w2 [Call "from_dlpack" data gpu_id;
              Call "move_to_device" result gpu_id] (Return moved).
Proof.
  intros Hp Hget Hfd Hmv Hrun1 Hrun2 self.
  pose proof (dlpack_path_run cs tgt tc fd mv data gpu_id w Hget Hfd Hmv) as Hd.
  rewrite Hrun1, Hrun2 in Hd. cbn [fst snd] in Hd.
  rewrite (method_zero_copy_returns _ _ _ _ _ _ moved Hp); [done|].
  by rewrite Hd.
Qed.

(** X4. With a registry that has no entry for the target, the generated
    method still exports the value first: [to_numpy] of the source runs, and
    only then does the lookup raise [KeyError]. No primitive of any target is
    called; the failed lookup inside the zero-copy attempt costs one warning
    when the probe reports support. *)
Theorem missing_target_raises_after_export
    cs tgt self (tn : prim) data gpu_id w :
  dict_get cs tgt = None →
  own_attrs self !! "to_numpy" = Some tn →
  let r := method cs tgt self data gpu_id w in
  final r = (tn data gpu_id w).1 ∧
  out r = match (tn data gpu_id w).2 with
          | Return _ => Raise (KeyError (value tgt))
          | Raise e => Raise e
          end ∧
  called (events r) = ["to_numpy"] ∧
  length (warnings (events r)) = (if _supports_dlpack data then 1 else 0)%nat.
Proof.
  intros Hget Htn r.
  assert (∀ w', cpu_roundtrip cs tgt self data gpu_id w' =
                Res (tn data gpu_id w').1 [Call "to_numpy" data gpu_id]
                    match (tn data gpu_id w').2 with
                    | Return _ => Raise (KeyError (value tgt))
                    | Raise e => Raise e
                    end) as Hcold.
  { intros w'. unfold cpu_roundtrip.
    rewrite bind_run, (call_own _ _ _ _ _ _ Htn). cbn [out final events].
    destruct (tn data gpu_id w') as [w1 [nd|e]]; cbn [fst snd]; [|done].
    rewrite bind_run. unfold subscript. by rewrite Hget. }
  assert (dlpack_path cs tgt data gpu_id w =
          Res w [] (Raise (KeyError (value tgt)))) as Hwarm.
  { unfold dlpack_path. rewrite bind_run. unfold subscript. by rewrite Hget. }
  subst r. destruct (_supports_dlpack data) eqn:Hp.
  - rewrite (method_zero_copy_caught _ _ _ _ _ _ (KeyError (value tgt)) Hp);
      [|by rewrite Hwarm|done].
    rewrite Hwarm. cbn [final events app]. by rewrite Hcold.
  - by rewrite (method_probe_false _ _ _ _ _ _ Hp), Hcold.
Qed.

(** X5. The second tier stops at its first failure. Without zero-copy
    support, a source object with no [to_numpy] makes the call raise
    [AttributeError] before anything is called, and a [to_numpy] that raises
    any exception, [Exception] or not, ends the call with that exception:
    the registry is not consulted and [from_numpy] is not called. *)
Theorem export_failure_ends_the_call cs tgt self data gpu_id w :
  _supports_dlpack data = false →
  let r := method cs tgt self data gpu_id w in
  (own_attrs self !! "to_numpy" = None →
     r = Res w [] (Raise (AttributeError "to_numpy"))) ∧
  (∀ (tn : prim) e,
     own_attrs self !! "to_numpy" = Some tn →
     (tn data gpu_id w).2 = Raise e →
     r = Res (tn data gpu_id w).1 [Call "to_numpy" data gpu_id] (Raise e)).
Proof.
  intros Hp r. subst r. rewrite (method_probe_false _ _ _ _ _ _ Hp).
  unfold cpu_roundtrip. rewrite bind_run. split.
  - intros Htn. by rewrite (call_missing _ _ _ _ _ Htn).
  - intros tn e Htn Hraise. rewrite (call_own _ _ _ _ _ _ Htn).
    cbn [out final events]. by rewrite Hraise.
Qed.

(** ** The class after generation *)

Lemma generated_lookup_other cls (ms : list MemoryType) name :
  (∀ t, t ∈ ms → to_name t ≠ name) →
  foldl (λ cls target_type,
           <[to_name target_type := Generated target_type]> cls) cls ms
    !! name = cls !! name.
Proof.
  induction ms as [|m ms IH] using rev_ind; [done|].
  intros Hne. rewrite foldl_snoc, lookup_insert_ne.
  - apply IH. intros t Hin. apply Hne, elem_of_app. by left.
  - apply Hne, elem_of_app. right. by apply list_elem_of_singleton.
Qed.

Lemma to_name_not_primitive t name :
  name ∈ ["from_numpy"; "from_dlpack"; "move_to_device"] → to_name t ≠ name.
Proof.
  unfold to_name. rewrite !elem_of_cons, elem_of_nil.
  by intros [->|[->|[->|[]]]].
Qed.

(** X6. Generation binds [to_<value>] to the method made for that member,
    for every member of the enumeration, and leaves every other name of the
    class as it was. *)
Theorem generation_binds_only_to_names cls :
  (∀ t, _add_converter_methods cls !! to_name t = Some (Generated t)) ∧
  (∀ name, (∀ t, to_name t ≠ name) →
           _add_converter_methods cls !! name = cls !! name).
Proof.
  split.
  - intros t. apply generated_lookup, elem_of_enum.
  - intros name Hne. apply generated_lookup_other. auto.
Qed.

(** X7. On [MemoryTypeConverter] itself, generation keeps [from_numpy],
    [from_dlpack] and [move_to_device] abstract but replaces the abstract
    [to_numpy] by the generated method as soon as a member has the value
    ["numpy"]; [to_numpy] stays abstract only when no member has that
    value. *)
Theorem generation_overwrites_abstract_to_numpy :
  let cls := _add_converter_methods MemoryTypeConverter in
  cls !! "from_numpy" = Some Abstract ∧
  cls !! "from_dlpack" = Some Abstract ∧
  cls !! "move_to_device" = Some Abstract ∧
  (∀ t, value t = "numpy" → cls !! "to_numpy" = Some (Generated t)) ∧
  ((∀ t, value t ≠ "numpy") → cls !! "to_numpy" = Some Abstract).
Proof.
  intros cls. subst cls. unfold _add_converter_methods.
  split_and!.
  - rewrite generated_lookup_other; [done|].
    intros t _. apply to_name_not_primitive. set_solver.
  - rewrite generated_lookup_other; [done|].
    intros t _. apply to_name_not_primitive. set_solver.
  - rewrite generated_lookup_other; [done|].
    intros t _. apply to_name_not_primitive. set_solver.
  - intros t Ht.
    assert (to_name t = "to_numpy") as <- by (unfold to_name; by rewrite Ht).
    apply generated_lookup, elem_of_enum.
  - intros Hnone. rewrite generated_lookup_other; [done|].
    intros t _. unfold to_name. simpl. intros [= Ht]. by apply (Hnone t).
Qed.

(** X8. Generating the methods a second time changes nothing. *)
Theorem generation_idempotent cls :
  _add_converter_methods (_add_converter_methods cls)
  = _add_converter_methods cls.
Proof.
  apply map_eq. intros name. unfold _add_converter_methods at 1.
  destruct (decide (name ∈ to_name <$> enum MemoryType)) as [Hin|Hnot].
  - apply list_elem_of_fmap in Hin as (t & -> & Hin).
    rewrite generated_lookup by done.
    symmetry. apply generated_lookup, elem_of_enum.
  - apply generated_lookup_other. intros t Hin <-. apply Hnot.
    by apply list_elem_of_fmap_2.
Qed.

(** ** More on the validation and the import *)

Lemma first_missing_app cls (pre post : dict) :
  first_missing cls (pre ++ post) =
    match first_missing cls pre with
    | Some found => Some found
    | None => first_missing cls post
    end.
Proof.
  induction pre as [|[mt tc] pre IH]; [done|].
  rewrite <-app_comm_cons. cbn [first_missing].
  by destruct (find_missing cls tc validated_names).
Qed.

(** X9. The validation fails fast and in order: it raises for the first
    registry entry, in insertion order, that lacks an attribute, and names
    the first attribute that entry lacks, the four primitives being checked
    before the [to_<target>] names; nothing is logged. *)
Theorem validation_reports_first_missing
    cls (pre post : dict) mt tc (before after : list string) name w :
  complete pre cls →
  validated_names = before ++ name :: after →
  (∀ n, n ∈ before → hasattr cls tc n = true) →
  hasattr cls tc name = false →
  _validate_converters (pre ++ (mt, tc) :: post) cls w =
    Res w [] (Raise (RuntimeError (value mt +:+ " converter missing method: "
                                   +:+ name))).
Proof.
  intros Hpre Hsplit Hbefore Hname.
  rewrite _validate_converters_run, first_missing_app.
  apply first_missing_None in Hpre. rewrite Hpre. cbn [first_missing].
  rewrite Hsplit, find_missing_app.
  apply find_missing_None in Hbefore. rewrite Hbefore. simpl.
  by rewrite Hname.
Qed.

(** X10. The validation never touches the state of the frameworks and calls
    no primitive. When it returns it has logged one debug line with the
    number of registry entries; when it raises, the exception is the
    [RuntimeError] for an attribute that some entry lacks, and nothing was
    logged. *)
Theorem validation_trace cs cls w :
  let r := _validate_converters cs cls w in
  final r = w ∧
  match out r with
  | Return _ =>
      events r = [Debug ("âœ… Validated " +:+ pretty (length cs)
                         +:+ " memory type converters")]
  | Raise e =>
      events r = [] ∧
      ∃ mt tc name,
        (mt, tc) ∈ cs ∧ name ∈ validated_names ∧
        hasattr cls tc name = false ∧
        e = RuntimeError (value mt +:+ " converter missing method: " +:+ name)
  end.
Proof.
  intros r. subst r. rewrite _validate_converters_run.
  destruct (first_missing cls cs) as [[mt name]|] eqn:Hm; [|done].
  cbn [final out events]. split_and!; [done..|].
  apply first_missing_Some in Hm as (tc & Hin & Hname & Hno).
  by exists mt, tc, name.
Qed.

(** X11. After generation a registry entry passes the validation exactly when
    it is an instance of a [MemoryTypeConverter] subclass or itself carries
    all four primitives and every [to_<target>]: an object of another class
    gets nothing from the generated methods. *)
Theorem entry_validates_iff tc :
  (∀ name, name ∈ validated_names →
           hasattr (_add_converter_methods MemoryTypeConverter) tc name = true)
  ↔ isinstance_MemoryTypeConverter tc = true ∨
    ∀ name, name ∈ validated_names → is_Some (own_attrs tc !! name).
Proof.
  split.
  - intros Hall. destruct (isinstance_MemoryTypeConverter tc) eqn:Hi; [by left|].
    right. intros name Hname. specialize (Hall name Hname).
    unfold hasattr in Hall. rewrite Hi, orb_false_r in Hall.
    by apply bool_decide_eq_true_1 in Hall.
  - intros [Hi|Hown] name Hname.
    + by apply hasattr_generated.
    + unfold hasattr. apply orb_true_iff. left.
      apply bool_decide_eq_true_2. by apply Hown.
Qed.

(** X12. When the registry hands out only instances of
    [MemoryTypeConverter] subclasses, the import succeeds: the validation
    finds nothing missing, the world is untouched, and the module holds the
    registry and the class with the generated methods. *)
Theorem import_succeeds_for_instances cs w :
  _CONVERTERS = Return cs →
  (∀ m c, (m, c) ∈ cs → isinstance_MemoryTypeConverter c = true) →
  module_init w =
    Res w [Debug ("âœ… Validated " +:+ pretty (length cs)
                  +:+ " memory type converters")]
        (Return (cs, _add_converter_methods MemoryTypeConverter)).
Proof.
  intros Hcs Hinst. rewrite module_init_run, Hcs. cbv zeta.
  assert (first_missing (_add_converter_methods MemoryTypeConverter) cs = None)
    as ->; [|done].
  apply first_missing_None. intros m c name Hin Hname.
  apply hasattr_generated; [by apply (Hinst m)|done].
Qed.

Lemma dict_comprehension_Raise (before after : list MemoryType) m e d :
  (∀ m', m' ∈ before → ∃ c, get_converter (value m') = Return c) →
  get_converter (value m) = Raise e →
  dict_comprehension (before ++ m :: after) d = Raise e.
Proof.
  revert d. induction before as [|m' before IH]; intros d Hbefore Hm; simpl.
  - by rewrite Hm.
  - destruct (Hbefore m') as [c ->]; [left|].
    apply IH; [|done]. intros m'' Hin. apply Hbefore. by right.
Qed.

(** X13. When [get_converter] raises for a member, and returned for the
    members declared before it, the import raises that very exception:
    the validation does not run, nothing is logged, and there is no
    registry. *)
Theorem registry_failure_aborts_import
    (before after : list MemoryType) m e w :
  enum MemoryType = before ++ m :: after →
  (∀ m', m' ∈ before → ∃ c, get_converter (value m') = Return c) →
  get_converter (value m) = Raise e →
  _CONVERTERS = Raise e ∧ module_init w = Res w [] (Raise e).
Proof.
  intros Henum Hbefore Hm.
  assert (_CONVERTERS = Raise e) as Hcs.
  { unfold _CONVERTERS. rewrite Henum. by apply dict_comprehension_Raise. }
  split; [done|]. by rewrite module_init_run, Hcs.
Qed.

(** X14. After a successful import, for every source and every target the
    registry has the source's converter, that converter has the four
    primitives, and [getattr(converter, "to_<target>")] resolves: the lookup
    a dispatcher makes cannot raise [KeyError] or [AttributeError]. *)
Theorem import_guarantees_dispatch w0 cs cls source target :
  out (module_init w0) = Return (cs, cls) →
  ∃ sc,
    dict_get cs source = Some sc ∧
    is_Some (getattr cls sc (to_name target)) ∧
    ∀ name, name ∈ required_methods → is_Some (own_attrs sc !! name).
Proof.
  intros Hinit.
  destruct (module_init_target w0 cs cls source Hinit) as (sc & Hget & Hown).
  apply module_init_Return in Hinit as (_ & _ & Hcomplete).
  exists sc. split_and!; [done| |done].
  apply hasattr_getattr. apply (Hcomplete source sc); [by apply dict_get_Some|].
  unfold validated_names. apply elem_of_app. right.
  apply list_elem_of_fmap_2, elem_of_enum.
Qed.

End Further.

(** * The further properties on the concrete package *)

(** Witness of X3: a CuPy array goes to Torch through the capsule even when
    the source object could not export anything. *)
Lemma zero_copy_success_bypasses_source_witness :
  method (H := Demo.package) Demo.registry Demo.TORCH Demo.failing_export
    (Demo.Array Demo.CUPY 7) 0 0 =
  Res 0 [Call "from_dlpack" (Demo.Array Demo.CUPY 7) 0;
         Call "move_to_device" (Demo.Array Demo.TORCH 7) 0]
        (Return (Demo.Array Demo.TORCH 7)).
Proof.
  apply (zero_copy_success_bypasses_source (H := Demo.package) Demo.registry
           Demo.TORCH (Demo.converter_of Demo.TORCH)
           (Demo.from_dlpack_of Demo.TORCH) Demo.move_to_device_of
           (Demo.Array Demo.CUPY 7) 0 0 0 (Demo.Array Demo.TORCH 7) 0
           (Demo.Array Demo.TORCH 7)); by_running.
Defined.

(** Witness of X4: a registry holding NumPy only, asked for Torch. *)
Lemma missing_target_raises_after_export_witness :
  out (method (H := Demo.package) [(Demo.NUMPY, Demo.converter_of Demo.NUMPY)]
         Demo.TORCH (Demo.converter_of Demo.CUPY) (Demo.Array Demo.CUPY 7) 0 0)
    = Raise (KeyError "torch") ∧
  called (events (method (H := Demo.package)
                    [(Demo.NUMPY, Demo.converter_of Demo.NUMPY)]
                    Demo.TORCH (Demo.converter_of Demo.CUPY)
                    (Demo.Array Demo.CUPY 7) 0 0)) = ["to_numpy"].
Proof.
  pose proof (missing_target_raises_after_export (H := Demo.package)
                [(Demo.NUMPY, Demo.converter_of Demo.NUMPY)] Demo.TORCH
                (Demo.converter_of Demo.CUPY) Demo.to_numpy_of
                (Demo.Array Demo.CUPY 7) 0 0) as P.
  cbv zeta in P. destruct P as (_ & Hout & Hcalled & _); [by_running..|].
  split; [exact Hout|exact Hcalled].
Defined.

(** Witness of X5: the export of the array fails, the call ends there. *)
Lemma export_failure_ends_the_call_witness :
  method (H := Demo.package) Demo.registry Demo.NUMPY Demo.failing_export
    (Demo.Array Demo.PYCLESPERANTO 3) 0 0 =
  Res 0 [Call "to_numpy" (Demo.Array Demo.PYCLESPERANTO 3) 0]
        (Raise (ValueError "unsupported dtype")).
Proof.
  pose proof (export_failure_ends_the_call (H := Demo.package) Demo.registry
                Demo.NUMPY Demo.failing_export
                (Demo.Array Demo.PYCLESPERANTO 3) 0 0) as P.
  cbv zeta in P. destruct P as [_ Hraise]; [by_running|].
  apply (Hraise (λ _ _ copies, (copies, Raise (ValueError "unsupported dtype"))));
    by_running.
Defined.

(** Witness of X9: [duck], registered fifth, has [to_numpy] and
    [from_numpy] and lacks [from_dlpack]. *)
Lemma validation_reports_first_missing_witness :
  _validate_converters (H := Demo.package_with_duck)
    (<[4%nat := (Demo.JAX, Demo.duck)]> Demo.registry)
    (_add_converter_methods (H := Demo.package_with_duck) MemoryTypeConverter)
    0 =
  Res 0 [] (Raise (RuntimeError "jax converter missing method: from_dlpack")).
Proof.
  apply (validation_reports_first_missing (H := Demo.package_with_duck)
           (_add_converter_methods (H := Demo.package_with_duck)
              MemoryTypeConverter)
           (take 4 Demo.registry) (drop 5 Demo.registry) Demo.JAX Demo.duck
           ["to_numpy"; "from_numpy"]
           ["move_to_device"; "to_numpy"; "to_cupy"; "to_torch";
            "to_tensorflow"; "to_jax"; "to_pyclesperanto"]
           "from_dlpack" 0).
  - apply first_missing_None. by_running.
  - by_running.
  - intros n Hin. repeat (apply elem_of_cons in Hin as [->|Hin]);
      [by_running..|by apply elem_of_nil in Hin].
  - by_running.
Defined.

(** Witness of X12: the sample package imports. *)
Lemma import_succeeds_for_instances_witness :
  module_init (H := Demo.package) 0 =
  Res 0 [Debug "âœ… Validated 6 memory type converters"]
        (Return (Demo.registry,
                 _add_converter_methods (H := Demo.package) MemoryTypeConverter)).
Proof.
  apply (import_succeeds_for_instances (H := Demo.package) Demo.registry 0).
  - by_running.
  - intros m c Hin. unfold Demo.registry in Hin.
    apply list_elem_of_fmap in Hin as (fw & Heq & _).
    injection Heq as -> ->. reflexivity.
Defined.

(** Witness of X13: JAX cannot be loaded. *)
Lemma registry_failure_aborts_import_witness :
  module_init (H := Demo.package_without_jax) 0 =
  Res 0 [] (Raise (Exn "ImportError" true "No module named 'jax'" None)).
Proof.
  apply (registry_failure_aborts_import (H := Demo.package_without_jax)
           [Demo.NUMPY; Demo.CUPY; Demo.TORCH; Demo.TENSORFLOW] [Demo.PYCLESPERANTO]
           Demo.JAX).
  - reflexivity.
  - intros m' Hin. repeat (apply elem_of_cons in Hin as [->|Hin]);
      [by eexists..|by apply elem_of_nil in Hin].
  - by_running.
Defined.

(** Witness of X14: after the sample package is imported, the CuPy
    converter has [to_jax]. *)
Lemma import_guarantees_dispatch_witness :
  ∃ sc,
    dict_get (H := Demo.package) Demo.registry Demo.CUPY = Some sc ∧
    is_Some (getattr (H := Demo.package)
               (_add_converter_methods (H := Demo.package) MemoryTypeConverter)
               sc "to_jax").
Proof.
  destruct (import_guarantees_dispatch (H := Demo.package) 0 Demo.registry
              (_add_converter_methods (H := Demo.package) MemoryTypeConverter)
              Demo.CUPY Demo.JAX) as (sc & Hget & Hattr & _); [by_running|].
  exists sc. split; [exact Hget|exact Hattr].
Defined.
